(** * The google_secret_manager lookup plugin

    A shallow embedding of
    [plugins/lookup/google_secret_manager.py] (class [LookupModule],
    methods [run] and [get_secret_value]) and the properties of its
    resolution algorithm.

    Conventions of the embedding.

    - A Python [str] is a Rocq [string] holding the UTF-8 encoding of the
      text; [bytes] are [list byte].  [bytes.decode("UTF-8")] therefore
      checks that the bytes are well-formed UTF-8 and keeps them.
    - The values [json.loads] produces are the inductive type [pyobj];
      a [dict] is an association list in insertion order.
    - Exceptions are the type [exn]; a method is a function of the state
      returning a [result] and the next state.  The state holds the
      secret-storage service and the chronological list of the effects
      the plugin caused (client construction, requests, warnings).
    - The service, the constructor of its client, [json.loads] and [repr]
      of a [str] are not code of the plugin: they are the variables of the
      section below.
    - [run] has the two policies as [str], the type its documentation
      gives them; [run_untyped] has them as values of any type. *)

From Stdlib Require Import String Ascii List ZArith NArith Bool Lia.
From Stdlib.Strings Require Import Byte.
From Stdlib Require Import DecimalString DecimalPos.
Import ListNotations.

Set Warnings "-register-all".

Local Open Scope list_scope.
Local Open Scope string_scope.

(* ================================================================== *)
(** ** Strings *)

Module Text.

(** [s.split(sep)] for a one-character separator: never an empty list. *)
Fixpoint split (sep : ascii) (s : string) : list string :=
  match s with
  | EmptyString => [EmptyString]
  | String c rest =>
      if Ascii.eqb c sep then EmptyString :: split sep rest
      else match split sep rest with
           | [] => [String c EmptyString]
           | h :: t => String c h :: t
           end
  end.

(** [sep.join(l)] *)
Definition join (sep : string) (l : list string) : string :=
  String.concat sep l.

(** [needle in hay] on two [str]: the substring test. *)
Fixpoint contains (needle hay : string) : bool :=
  if String.prefix needle hay then true
  else match hay with
       | EmptyString => false
       | String _ rest => contains needle rest
       end.

(** [x in l] for a list of [str]. *)
Definition mem (x : string) (l : list string) : bool :=
  existsb (String.eqb x) l.

Definition is_upper (c : ascii) : bool :=
  let n := nat_of_ascii c in (65 <=? n)%nat && (n <=? 90)%nat.

Definition is_lower (c : ascii) : bool :=
  let n := nat_of_ascii c in (97 <=? n)%nat && (n <=? 122)%nat.

Definition lower_char (c : ascii) : ascii :=
  if is_upper c then ascii_of_nat (nat_of_ascii c + 32) else c.

Definition upper_char (c : ascii) : ascii :=
  if is_lower c then ascii_of_nat (nat_of_ascii c - 32) else c.

(** [s.lower()].  ASCII capitals are folded.  Two code points outside
    ASCII have a lowercase form that contains an ASCII letter, and are
    mapped as Python maps them: U+212A KELVIN SIGN (bytes E2 84 AA) to
    [k], and U+0130 (bytes C4 B0) to [i] followed by U+0307 (bytes CC 87).
    Every other code point outside ASCII is kept as it is, where Python
    may map it to another code point outside ASCII. *)
Fixpoint lower (s : string) : string :=
  match s with
  | EmptyString => EmptyString
  | String "226" (String "132" (String "170" rest)) =>
      String "k" (lower rest)
  | String "196" (String "176" rest) =>
      String "i" (String "204" (String "135" (lower rest)))
  | String c rest => String (lower_char c) (lower rest)
  end.

(** The text [s] between two double quotes. *)
Definition quoted (s : string) : string :=
  String "034" (s ++ String "034" EmptyString).

(** [str(n)] for an [int]. *)
Definition of_Z (z : Z) : string := NilEmpty.string_of_int (Z.to_int z).

End Text.

(* ================================================================== *)
(** ** UTF-8 *)

Module Utf8.

Definition between (lo hi b : N) : bool := (lo <=? b)%N && (b <=? hi)%N.

Definition cont (b : N) : bool := between 128 191 b.

(** The well-formed byte sequences of UTF-8 (no overlong form, no
    surrogate, nothing above U+10FFFF), as the strict decoder accepts
    them.  [fuel] bounds the number of code points. *)
Fixpoint well_formed (fuel : nat) (l : list N) : bool :=
  match fuel with
  | O => match l with [] => true | _ => false end
  | S fuel' =>
      match l with
      | [] => true
      | b0 :: l1 =>
          if between 0 127 b0 then well_formed fuel' l1
          else match l1 with
          | [] => false
          | b1 :: l2 =>
              if between 194 223 b0 then cont b1 && well_formed fuel' l2
              else match l2 with
              | [] => false
              | b2 :: l3 =>
                  if (b0 =? 224)%N then
                    between 160 191 b1 && cont b2 && well_formed fuel' l3
                  else if between 225 236 b0 || between 238 239 b0 then
                    cont b1 && cont b2 && well_formed fuel' l3
                  else if (b0 =? 237)%N then
                    between 128 159 b1 && cont b2 && well_formed fuel' l3
                  else match l3 with
                  | [] => false
                  | b3 :: l4 =>
                      if (b0 =? 240)%N then
                        between 144 191 b1 && cont b2 && cont b3
                        && well_formed fuel' l4
                      else if between 241 243 b0 then
                        cont b1 && cont b2 && cont b3 && well_formed fuel' l4
                      else if (b0 =? 244)%N then
                        between 128 143 b1 && cont b2 && cont b3
                        && well_formed fuel' l4
                      else false
                  end
              end
          end
      end
  end.

(** [data.decode("UTF-8")]: [None] stands for [UnicodeDecodeError]. *)
Definition decode (data : list byte) : option string :=
  if well_formed (length data) (map Byte.to_N data)
  then Some (string_of_list_byte data)
  else None.

End Utf8.

(* ================================================================== *)
(** ** Values, exceptions, effects *)

(** What [json.loads] returns.  A [float] is held by its [repr] text:
    the plugin only ever converts it with [str]. *)
Inductive pyobj : Type :=
| PyNone
| PyBool (b : bool)
| PyInt (z : Z)
| PyFloat (repr : string)
| PyStr (s : string)
| PyList (l : list pyobj)
| PyDict (d : list (string * pyobj)).

Inductive type_error : Type :=
| NotIterable (v : pyobj)               (* [key in v], [v] a number, bool or None *)
| BadSubscript (v : pyobj) (key : string) (* [v[key]], [v] a list or a str *)
| UnexpectedKeyword (name : string).    (* call with a keyword the [def] lacks *)

Inductive exn : Type :=
| AnsibleError (msg : string)
| TypeError (what : type_error)
| UnicodeDecodeError
| JSONDecodeError
| ServiceException (text : string)
| AttributeError.                       (* [v.lower()], [v] not a str *)

(** The answer of [client.access_secret_version]: the payload bytes, or one
    of the exceptions the plugin tells apart ([NF], [PD], any other [CE]),
    or an exception of the client library that is no [ClientError]. *)
Inductive response : Type :=
| Payload (data : list byte)
| RaiseNF
| RaisePD
| RaiseCE (text : string)
| RaiseOther (text : string).

Inductive event : Type :=
| NewClient
| Request (name : string)
| Warning (msg : string).

Inductive result (A : Type) : Type :=
| Ok (a : A)
| Raise (e : exn).

Arguments Ok {A} a.
Arguments Raise {A} e.

(** [key in d] and [d[key]] for a dict. *)
Fixpoint dict_get (key : string) (d : list (string * pyobj)) : option pyobj :=
  match d with
  | [] => None
  | (k, v) :: rest => if String.eqb key k then Some v else dict_get key rest
  end.

(** [d[key] = v]: an existing key keeps its place. *)
Fixpoint dict_set (key : string) (v : pyobj) (d : list (string * pyobj))
  : list (string * pyobj) :=
  match d with
  | [] => [(key, v)]
  | (k, w) :: rest =>
      if String.eqb key k then (k, v) :: rest else (k, w) :: dict_set key v rest
  end.

(** [x == key] for a [str] [key]: only an equal [str] is equal to it. *)
Definition eq_str (key : string) (x : pyobj) : bool :=
  match x with
  | PyStr s => String.eqb s key
  | _ => false
  end.

(** Truth value of a [str] or [None]. *)
Definition truthy (v : option string) : bool :=
  match v with
  | Some (String _ _) => true
  | _ => false
  end.

(* ================================================================== *)
(** ** A reader for a fragment of JSON

    Used to run the plugin on concrete payloads: objects, arrays, strings
    without escapes, integers, [true], [false], [null].  Outside of this
    fragment it answers [None]. *)

Module JsonFragment.

Definition dq : ascii := "034".

Definition is_ws (c : ascii) : bool :=
  match c with
  | " " | "009" | "010" | "013" => true
  | _ => false
  end%char.

Definition digit (c : ascii) : option Z :=
  let n := nat_of_ascii c in
  if (48 <=? n)%nat && (n <=? 57)%nat then Some (Z.of_nat (n - 48)) else None.

Fixpoint skip_ws (s : string) : string :=
  match s with
  | String c r => if is_ws c then skip_ws r else s
  | EmptyString => s
  end.

(** The characters up to the closing quote. *)
Fixpoint chars (s : string) : option (string * string) :=
  match s with
  | EmptyString => None
  | String c r =>
      if Ascii.eqb c dq then Some (EmptyString, r)
      else if Ascii.eqb c "\" || (nat_of_ascii c <? 32)%nat then None
      else match chars r with
           | Some (body, r') => Some (String c body, r')
           | None => None
           end
  end.

Fixpoint digits (acc : Z) (s : string) : Z * string :=
  match s with
  | String c r =>
      match digit c with
      | Some d => digits (10 * acc + d) r
      | None => (acc, s)
      end
  | EmptyString => (acc, s)
  end.

(** An integer: [-]? then [0] or a digit sequence with no leading zero,
    not followed by a fraction or an exponent. *)
Definition integer (s : string) : option (Z * string) :=
  let '(neg, s1) :=
    match s with
    | String "-" r => (true, r)
    | _ => (false, s)
    end in
  match s1 with
  | String c r =>
      match digit c with
      | None => None
      | Some d =>
          let '(n, rest) := if (d =? 0)%Z then (0%Z, r) else digits d r in
          match rest with
          | String "." _ | String "e" _ | String "E" _ => None
          | String c' _ =>
              match digit c' with
              | Some _ => None
              | None => Some (if neg then (- n)%Z else n, rest)
              end
          | EmptyString => Some (if neg then (- n)%Z else n, rest)
          end
      end
  | EmptyString => None
  end.

Definition literal (word : string) (v : pyobj) (s : string)
  : option (pyobj * string) :=
  if String.prefix word s
  then Some (v, String.substring (String.length word)
                  (String.length s - String.length word) s)
  else None.

Fixpoint value (fuel : nat) (s : string) : option (pyobj * string) :=
  match fuel with
  | O => None
  | S fuel' =>
      match skip_ws s with
      | String "{" r =>
          match skip_ws r with
          | String "}" r' => Some (PyDict [], r')
          | r1 => members fuel' [] r1
          end
      | String "[" r =>
          match skip_ws r with
          | String "]" r' => Some (PyList [], r')
          | r1 => elements fuel' [] r1
          end
      | String "034" r =>
          match chars r with
          | Some (body, r') => Some (PyStr body, r')
          | None => None
          end
      | String "t" _ as w => literal "true" (PyBool true) w
      | String "f" _ as w => literal "false" (PyBool false) w
      | String "n" _ as w => literal "null" PyNone w
      | w =>
          match integer w with
          | Some (n, r) => Some (PyInt n, r)
          | None => None
          end
      end
  end

with members (fuel : nat) (acc : list (string * pyobj)) (s : string)
  : option (pyobj * string) :=
  match fuel with
  | O => None
  | S fuel' =>
      match skip_ws s with
      | String "034" r =>
          match chars r with
          | Some (key, r1) =>
              match skip_ws r1 with
              | String ":" r2 =>
                  match value fuel' r2 with
                  | Some (v, r3) =>
                      match skip_ws r3 with
                      | String "," r4 => members fuel' (dict_set key v acc) r4
                      | String "}" r4 => Some (PyDict (dict_set key v acc), r4)
                      | _ => None
                      end
                  | None => None
                  end
              | _ => None
              end
          | None => None
          end
      | _ => None
      end
  end

with elements (fuel : nat) (acc : list pyobj) (s : string)
  : option (pyobj * string) :=
  match fuel with
  | O => None
  | S fuel' =>
      match value fuel' s with
      | Some (v, r) =>
          match skip_ws r with
          | String "," r' => elements fuel' (acc ++ [v])%list r'
          | String "]" r' => Some (PyList (acc ++ [v])%list, r')
          | _ => None
          end
      | None => None
      end
  end.

Definition loads (s : string) : option pyobj :=
  match value (S (String.length s)) s with
  | Some (v, rest) =>
      match skip_ws rest with
      | EmptyString => Some v
      | _ => None
      end
  | None => None
  end.

(** [repr] of a [str] made of printable ASCII with no quote and no
    backslash: the text between single quotes. *)
Definition repr_plain (s : string) : string := "'" ++ s ++ "'".

End JsonFragment.

(* ================================================================== *)
(** ** A table-driven service

    A secret-storage service given by a table from resource names to
    answers; a name absent from the table does not exist. *)

Module TableService.

Definition World : Type := list (string * response).

Fixpoint answer (w : World) (name : string) : response :=
  match w with
  | [] => RaiseNF
  | (n, r) :: rest => if String.eqb name n then r else answer rest name
  end.

Definition access_secret_version (w : World) (name : string)
  : response * World := (answer w name, w).

(** The JSON text of an object with one member, its key [k] and the text
    of its value [v]. *)
Definition member (k v : string) : string :=
  "{" ++ Text.quoted k ++ ":" ++ v ++ "}".

(** Project [P]: secret [foo] holds an object with the object [bar], whose
    [baz] is the number 42; [flat] holds an object whose [bar] is the
    number 42; [a] and [b] hold the texts [x] and [y]; [e] holds no byte;
    access to [d] is denied; [c] fails with another client error; [s] fails
    with an exception of the client that is no client error; any other name
    does not exist. *)
Definition sample : World :=
  [("projects/P/secrets/foo/versions/latest",
     Payload (list_byte_of_string (member "bar" (member "baz" "42"))));
   ("projects/P/secrets/flat/versions/latest",
     Payload (list_byte_of_string (member "bar" "42")));
   ("projects/P/secrets/a/versions/latest", Payload (list_byte_of_string "x"));
   ("projects/P/secrets/b/versions/latest", Payload (list_byte_of_string "y"));
   ("projects/P/secrets/a/versions/7", Payload (list_byte_of_string "old"));
   ("projects/P/secrets/e/versions/latest", Payload []);
   ("projects/P/secrets/d/versions/latest", RaisePD);
   ("projects/P/secrets/c/versions/latest", RaiseCE "400 bad request");
   ("projects/P/secrets/s/versions/latest", RaiseOther "503 unavailable")].

(** The client of a table-driven service is always built. *)
Definition create_client (w : World) : option string * World := (None, w).

(** A service without credentials: no client can be built. *)
Definition no_credentials (w : World) : option string * World :=
  (Some "no credentials", w).

(** Project [P] again: secret [bin] holds two bytes that are no UTF-8;
    [zero] holds an object whose [n] is the number 0 and whose [l] is the
    empty array. *)
Definition corner : World :=
  [("projects/P/secrets/bin/versions/latest", Payload [xff; xfe]);
   ("projects/P/secrets/zero/versions/latest",
     Payload (list_byte_of_string
                ("{" ++ Text.quoted "n" ++ ":0," ++ Text.quoted "l" ++ ":[]}")))].

End TableService.

(* ================================================================== *)
(** ** The plugin *)

Section LookupModule.

(** The secret-storage service behind the client, with its own state. *)
Variable World : Type.
Variable access_secret_version : World -> string -> response * World.

(** [secretmanager.SecretManagerServiceClient()]: [Some text] stands for an
    exception of the constructor, with its text. *)
Variable SecretManagerServiceClient : World -> option string * World.

(** [json.loads]: [None] stands for [JSONDecodeError]. *)
Variable json_loads : string -> option pyobj.

(** [repr(s)] for a [str]. *)
Variable str_repr : string -> string.

Record state : Type := mkState {
  service : World;
  effects : list event
}.

Definition M (A : Type) : Type := state -> result A * state.

Definition ret {A : Type} (a : A) : M A := fun st => (Ok a, st).

Definition raise {A : Type} (e : exn) : M A := fun st => (Raise e, st).

Definition bind {A B : Type} (m : M A) (k : A -> M B) : M B :=
  fun st =>
    match m st with
    | (Ok a, st') => k a st'
    | (Raise e, st') => (Raise e, st')
    end.

Notation "x <- m ;; k" := (bind m (fun x => k))
  (at level 61, m at next level, right associativity).
Notation "m ;; k" := (bind m (fun _ => k))
  (at level 61, right associativity).

Definition emit (e : event) : M unit :=
  fun st => (Ok tt, mkState (service st) (effects st ++ [e])%list).

Definition lift {A : Type} (r : result A) : M A := fun st => (r, st).

(** [secretmanager.SecretManagerServiceClient()] *)
Definition new_client : M unit := emit NewClient.

(** [client.access_secret_version(request={"name": name})], before the
    exception, if any, is raised. *)
Definition call_service (name : string) : M response :=
  fun st =>
    let '(r, w) := access_secret_version (service st) name in
    (Ok r, mkState w (effects st ++ [Request name])%list).

(** [self._display.warning(msg)] *)
Definition display_warning (msg : string) : M unit := emit (Warning msg).

(** [repr(v)] and [str(v)]. *)
Fixpoint py_repr (v : pyobj) : string :=
  match v with
  | PyNone => "None"
  | PyBool true => "True"
  | PyBool false => "False"
  | PyInt z => Text.of_Z z
  | PyFloat r => r
  | PyStr s => str_repr s
  | PyList l => "[" ++ Text.join ", " (map py_repr l) ++ "]"
  | PyDict d =>
      "{" ++ Text.join ", "
               (map (fun '(k, x) => str_repr k ++ ": " ++ py_repr x) d)
          ++ "}"
  end.

Definition py_str (v : pyobj) : string :=
  match v with
  | PyStr s => s
  | _ => py_repr v
  end.

Definition no_key_message (key : string) : string :=
  "Successfully retrieved secret but there exists no key " ++ key
  ++ " in the secret".

(** One turn of the loop of lines 191-196: [key in ret_val], then
    [ret_val[key]] or the [AnsibleError]. *)
Definition lookup_key (key : string) (ret_val : pyobj) : result pyobj :=
  match ret_val with
  | PyDict d =>
      match dict_get key d with
      | Some v => Ok v
      | None => Raise (AnsibleError (no_key_message key))
      end
  | PyList l =>
      if existsb (eq_str key) l
      then Raise (TypeError (BadSubscript ret_val key))
      else Raise (AnsibleError (no_key_message key))
  | PyStr s =>
      if Text.contains key s
      then Raise (TypeError (BadSubscript ret_val key))
      else Raise (AnsibleError (no_key_message key))
  | PyNone | PyBool _ | PyInt _ | PyFloat _ =>
      Raise (TypeError (NotIterable ret_val))
  end.

Fixpoint walk (query : list string) (ret_val : pyobj) : result pyobj :=
  match query with
  | [] => Ok ret_val
  | key :: rest =>
      match lookup_key key ret_val with
      | Ok v => walk rest v
      | Raise e => Raise e
      end
  end.

Definition nested_syntax_message : string :=
  "Nested query must use the following syntax: `aws_secret_name.<key_name>.<key_name>".

(** Lines 171-181: the resource name, or the error of a nested term
    without a dot. *)
Definition resource_name (term project_id : string)
  (version_id : option string) (nested : bool) : result string :=
  let parent := "projects/" ++ project_id ++ "/secrets" in
  let name := parent ++ "/" ++ term ++ "/versions" in
  let versioned (name : string) : string :=
    match version_id with
    | Some (String _ _ as v) => name ++ "/" ++ v
    | _ => name ++ "/latest"
    end in
  if nested then
    if (List.length (Text.split "." term) <? 2)%nat
    then Raise (AnsibleError nested_syntax_message)
    else
      let secret_name := hd EmptyString (Text.split "." term) in
      Ok (versioned (parent ++ "/" ++ secret_name ++ "/versions"))
  else Ok (versioned name).

(** Lines 185-199: what the [try] body does with the payload. *)
Definition read_payload (term : string) (nested : bool) (data : list byte)
  : result (option string) :=
  match Utf8.decode data with
  | None => Raise UnicodeDecodeError
  | Some payload =>
      if nested then
        let query := tl (Text.split "." term) in
        match json_loads payload with
        | None => Raise JSONDecodeError
        | Some secret_string =>
            match walk query secret_string with
            | Ok ret_val => Ok (Some (py_str ret_val))
            | Raise e => Raise e
            end
        end
      else Ok (Some payload)
  end.

Definition get_secret_value (term project_id : string)
  (version_id : option string) (on_missing on_denied : string)
  (nested : bool) : M (option string) :=
  name <- lift (resource_name term project_id version_id nested) ;;
  response <- call_service name ;;
  match response with
  | Payload data => lift (read_payload term nested data)
  | RaiseNF =>
      if String.eqb on_missing "error" then
        raise (AnsibleError
                 ("Failed to find secret " ++ term ++ " (ResourceNotFound)"))
      else if String.eqb on_missing "warn" then
        display_warning ("Skipping, did not find secret " ++ term) ;;
        ret None
      else ret None
  | RaisePD =>
      if String.eqb on_denied "error" then
        raise (AnsibleError
                 ("Failed to access secret " ++ term ++ " (AccessDenied)"))
      else if String.eqb on_denied "warn" then
        display_warning ("Skipping, access denied for secret " ++ term) ;;
        ret None
      else ret None
  | RaiseCE text => raise (AnsibleError ("Failed to retrieve secret: " ++ text))
  | RaiseOther text => raise (ServiceException text)
  end.

Definition policies : list string := ["error"; "warn"; "skip"].

(** The message of lines 148 and 152 for the option [option] and its
    lowered value. *)
Definition policy_message (option value : string) : string :=
  Text.quoted option ++ " must be a string and one of " ++ Text.quoted "error"
  ++ ", " ++ Text.quoted "warn" ++ " or " ++ Text.quoted "skip" ++ ", not "
  ++ value.

(** The loop of lines 157-161, [secrets] being the list built so far. *)
Fixpoint resolve_terms (terms : list string) (project_id : string)
  (version_id : option string) (missing denied : string) (nested : bool)
  (secrets : list string) : M (list string) :=
  match terms with
  | [] => ret secrets
  | term :: rest =>
      value <- get_secret_value term project_id version_id missing denied
                 nested ;;
      resolve_terms rest project_id version_id missing denied nested
        (match value with
         | Some (String _ _ as v) => (secrets ++ [v])%list
         | _ => secrets
         end)
  end.

(** [run(self, project_id, terms, variables=None, nested=False, join=False,
    version_id="latest", on_missing='error', on_denied='error')];
    [variables] is not used by the body and is left out.  Here the two
    policies are [str] and the client is built without exception;
    [run_untyped] below is [run] for policies of any type and a constructor
    that may raise. *)
Definition run (project_id : string) (terms : list string)
  (nested join : bool) (version_id : option string)
  (on_missing on_denied : string) : M (list string) :=
  let missing := Text.lower on_missing in
  if negb (Text.mem missing policies) then
    raise (AnsibleError (policy_message "on_missing" missing))
  else
  let denied := Text.lower on_denied in
  if negb (Text.mem denied policies) then
    raise (AnsibleError (policy_message "on_denied" denied))
  else
  new_client ;;
  secrets <- resolve_terms terms project_id version_id missing denied nested
               [] ;;
  if join then ret [Text.join "" secrets] else ret secrets.

(** The parameters of [run] after [self], as its [def] names them. *)
Definition run_parameters : list string :=
  ["project_id"; "terms"; "variables"; "nested"; "join"; "version_id";
   "on_missing"; "on_denied"].

(** A call of [run] whose keyword arguments are named [keywords] and whose
    body, with the arguments bound, is [body]: the [def] has no [**kwargs],
    so a keyword that names no parameter raises [TypeError] before the
    body runs. *)
Definition call_run {A : Type} (keywords : list string) (body : M A) : M A :=
  match find (fun k => negb (Text.mem k run_parameters)) keywords with
  | Some k => raise (TypeError (UnexpectedKeyword k))
  | None => body
  end.

(** The default values of the [def]. *)
Definition default_version_id : option string := Some "latest".
Definition default_policy : string := "error".

(** [v.lower()] for a value of any type: among the values of [pyobj] only a
    [str] has the method, and the others raise [AttributeError]. *)
Definition lower_method (v : pyobj) : result string :=
  match v with
  | PyStr s => Ok (Text.lower s)
  | _ => Raise AttributeError
  end.

(** [isinstance(v, string_types)] *)
Definition isinstance_string_types (v : pyobj) : bool :=
  match v with
  | PyStr _ => true
  | _ => false
  end.

(** Line 154: the client is built, or the constructor raises. *)
Definition construct_client : M unit :=
  fun st =>
    match SecretManagerServiceClient (service st) with
    | (None, w) => (Ok tt, mkState w (effects st ++ [NewClient])%list)
    | (Some text, w) =>
        (Raise (ServiceException text), mkState w (effects st))
    end.

(** Lines 146-167 for [on_missing] and [on_denied] of any type: [.lower()]
    is called first, then the result is tested with [isinstance] and against
    the three words. *)
Definition run_untyped (project_id : string) (terms : list string)
  (nested join : bool) (version_id : option string)
  (on_missing on_denied : pyobj) : M (list string) :=
  missing <- lift (lower_method on_missing) ;;
  if negb (isinstance_string_types (PyStr missing))
     || negb (Text.mem missing policies) then
    raise (AnsibleError (policy_message "on_missing" missing))
  else
  denied <- lift (lower_method on_denied) ;;
  if negb (isinstance_string_types (PyStr denied))
     || negb (Text.mem denied policies) then
    raise (AnsibleError (policy_message "on_denied" denied))
  else
  construct_client ;;
  secrets <- resolve_terms terms project_id version_id missing denied nested
               [] ;;
  if join then ret [Text.join "" secrets] else ret secrets.

(* ------------------------------------------------------------------ *)
(** *** Vocabulary of the statements *)

(** The state once one more effect happened. *)
Definition after (st : state) (e : event) : state :=
  mkState (service st) (effects st ++ [e])%list.

(** The version segment of a resource name. *)
Definition version_or_latest (version_id : option string) : string :=
  match version_id with
  | Some (String _ _ as v) => v
  | _ => "latest"
  end.

(** The resource name as the service documents it. *)
Definition resource_path (project_id secret_name version : string) : string :=
  "projects/" ++ project_id ++ "/secrets/" ++ secret_name ++ "/versions/"
  ++ version.

(** The result of each term, in order: what [get_secret_value] gives for
    the first term, then for the second in the state the first left, and so
    on, up to the first exception. *)
Fixpoint resolve_each (terms : list string) (project_id : string)
  (version_id : option string) (missing denied : string) (nested : bool)
  : M (list (option string)) :=
  match terms with
  | [] => ret []
  | term :: rest =>
      value <- get_secret_value term project_id version_id missing denied
                 nested ;;
      values <- resolve_each rest project_id version_id missing denied
                  nested ;;
      ret (value :: values)
  end.

(** The resolved values among the results: every [Some]. *)
Definition resolved (results : list (option string)) : list string :=
  flat_map (fun r => match r with Some v => [v] | None => [] end) results.

(** The entries a list of results contributes to the output. *)
Definition kept (results : list (option string)) : list string :=
  flat_map (fun r => match r with
                     | Some (String _ _ as v) => [v]
                     | _ => []
                     end) results.

(** [s] with the letters at the flagged positions in upper case. *)
Fixpoint recase (flags : list bool) (s : string) : string :=
  match s, flags with
  | String c r, b :: flags' =>
      String (if b then Text.upper_char c else c) (recase flags' r)
  | _, _ => s
  end.

(** The rest of [run] once the options are validated. *)
Definition resolve_and_join (terms : list string) (project_id : string)
  (version_id : option string) (missing denied : string)
  (nested join : bool) (secrets : list string) : M (list string) :=
  secrets' <- resolve_terms terms project_id version_id missing denied
                nested secrets ;;
  if join then ret [Text.join "" secrets'] else ret secrets'.

(** The number of requests among some effects. *)
Fixpoint requests (effs : list event) : nat :=
  match effs with
  | [] => 0
  | Request _ :: rest => S (requests rest)
  | _ :: rest => requests rest
  end.

(** The number of clients created among some effects. *)
Fixpoint clients (effs : list event) : nat :=
  match effs with
  | [] => 0
  | NewClient :: rest => S (clients rest)
  | _ :: rest => clients rest
  end.

(** The warnings displayed among some effects, in order. *)
Fixpoint warnings (effs : list event) : list string :=
  match effs with
  | [] => []
  | Warning msg :: rest => msg :: warnings rest
  | _ :: rest => warnings rest
  end.

(** The values of [json.loads] other than [str] and [float]. *)
Definition plain_value (v : pyobj) : bool :=
  match v with
  | PyStr _ | PyFloat _ => false
  | _ => true
  end.

(* ================================================================== *)
(** ** Properties *)

(** *** Strings *)

Lemma append_assoc (a b c : string) : (a ++ b) ++ c = a ++ (b ++ c).
Proof.
  induction a as [|x a IH]; simpl; [reflexivity|]. now rewrite IH.
Qed.

Lemma append_nil_r (a : string) : a ++ "" = a.
Proof.
  induction a as [|x a IH]; simpl; [reflexivity|]. now rewrite IH.
Qed.

Lemma prefix_append (a b : string) : String.prefix a (a ++ b) = true.
Proof.
  induction a as [|x a IH]; simpl.
  - now destruct b.
  - destruct (ascii_dec x x) as [_|N]; [exact IH | now elim N].
Qed.

Lemma contains_prefix (t h : string) :
  String.prefix t h = true -> Text.contains t h = true.
Proof.
  intros H. destruct h; unfold Text.contains; rewrite H; reflexivity.
Qed.

Lemma contains_append (t a b : string) :
  Text.contains t (a ++ t ++ b) = true.
Proof.
  induction a as [|x a IH].
  - change ("" ++ t ++ b) with (t ++ b).
    apply contains_prefix, prefix_append.
  - change (String x a ++ t ++ b) with (String x (a ++ t ++ b)).
    change (Text.contains t (String x (a ++ t ++ b)))
      with (if String.prefix t (String x (a ++ t ++ b)) then true
            else Text.contains t (a ++ t ++ b)).
    destruct (String.prefix t (String x (a ++ t ++ b))); [reflexivity|].
    exact IH.
Qed.

Lemma join_empty_cons (x : string) (l : list string) :
  Text.join "" (x :: l) = x ++ Text.join "" l.
Proof.
  unfold Text.join. destruct l as [|y l]; simpl.
  - now rewrite append_nil_r.
  - reflexivity.
Qed.

Lemma join_empty_app (l1 l2 : list string) :
  Text.join "" (l1 ++ l2) = Text.join "" l1 ++ Text.join "" l2.
Proof.
  induction l1 as [|x l1 IH].
  - reflexivity.
  - rewrite <- app_comm_cons, !join_empty_cons, IH, append_assoc. reflexivity.
Qed.

Lemma join_kept (results : list (option string)) :
  Text.join "" (kept results) = Text.join "" (resolved results).
Proof.
  induction results as [|[[|c v]|] rs IH].
  - reflexivity.
  - change (Text.join "" (kept rs) = Text.join "" ("" :: resolved rs)).
    rewrite join_empty_cons. exact IH.
  - change (Text.join "" (String c v :: kept rs)
            = Text.join "" (String c v :: resolved rs)).
    rewrite !join_empty_cons. now rewrite IH.
  - exact IH.
Qed.

(** *** The resource name *)

Lemma versioned_path (project_id secret_name : string)
  (version_id : option string) :
  match version_id with
  | Some (String _ _ as v) =>
      (("projects/" ++ project_id ++ "/secrets") ++ "/" ++ secret_name
       ++ "/versions") ++ "/" ++ v
  | _ =>
      (("projects/" ++ project_id ++ "/secrets") ++ "/" ++ secret_name
       ++ "/versions") ++ "/latest"
  end = resource_path project_id secret_name (version_or_latest version_id).
Proof.
  unfold resource_path.
  destruct version_id as [[|c v]|]; cbn [version_or_latest];
    rewrite !append_assoc; reflexivity.
Qed.

Lemma resource_name_plain (term project_id : string)
  (version_id : option string) :
  resource_name term project_id version_id false
  = Ok (resource_path project_id term (version_or_latest version_id)).
Proof.
  unfold resource_name. f_equal. apply versioned_path.
Qed.

Lemma resource_name_nested (term project_id : string)
  (version_id : option string) (secret_name key : string)
  (keys : list string) :
  Text.split "." term = secret_name :: key :: keys ->
  resource_name term project_id version_id true
  = Ok (resource_path project_id secret_name (version_or_latest version_id)).
Proof.
  intros E. unfold resource_name. rewrite E. cbn [List.length Nat.ltb Nat.leb hd].
  f_equal. apply versioned_path.
Qed.

(** *** One term *)

(** [get_secret_value] once the name is built and the service answered. *)
Lemma get_secret_value_answer (term project_id : string)
  (version_id : option string) (on_missing on_denied : string)
  (nested : bool) (st : state) (name : string) (r : response) (w' : World) :
  resource_name term project_id version_id nested = Ok name ->
  access_secret_version (service st) name = (r, w') ->
  get_secret_value term project_id version_id on_missing on_denied nested st
  = match r with
    | Payload data => lift (read_payload term nested data)
    | RaiseNF =>
        if String.eqb on_missing "error" then
          raise (AnsibleError
                   ("Failed to find secret " ++ term ++ " (ResourceNotFound)"))
        else if String.eqb on_missing "warn" then
          display_warning ("Skipping, did not find secret " ++ term) ;;
          ret None
        else ret None
    | RaisePD =>
        if String.eqb on_denied "error" then
          raise (AnsibleError
                   ("Failed to access secret " ++ term ++ " (AccessDenied)"))
        else if String.eqb on_denied "warn" then
          display_warning ("Skipping, access denied for secret " ++ term) ;;
          ret None
        else ret None
    | RaiseCE text =>
        raise (AnsibleError ("Failed to retrieve secret: " ++ text))
    | RaiseOther text => raise (ServiceException text)
    end (mkState w' (effects st ++ [Request name])%list).
Proof.
  intros Hname Hanswer.
  unfold get_secret_value, bind, lift, call_service.
  rewrite Hname, Hanswer. reflexivity.
Qed.

(** C1. When the fetch of a term raises the not-found exception,
    [on_missing] decides: with "error" an [AnsibleError] whose message
    contains the term is raised, with "warn" a warning is displayed and the
    term has no value, with "skip" the term has no value and nothing is
    displayed.  The access-denied exception is handled in the same way
    under [on_denied].  Any other exception of the fetch is raised again,
    whatever the two policies are. *)
Theorem fetch_failure_policy (term project_id : string)
  (version_id : option string) (on_missing on_denied : string)
  (nested : bool) (st : state) (name : string) (r : response) (w' : World) :
  resource_name term project_id version_id nested = Ok name ->
  access_secret_version (service st) name = (r, w') ->
  let st' := mkState w' (effects st ++ [Request name])%list in
  let got :=
    get_secret_value term project_id version_id on_missing on_denied nested
      st in
  match r with
  | Payload _ => True
  | RaiseNF =>
      let msg := "Failed to find secret " ++ term ++ " (ResourceNotFound)" in
      (on_missing = "error" ->
         got = (Raise (AnsibleError msg), st')
         /\ Text.contains term msg = true)
      /\ (on_missing = "warn" ->
            got = (Ok None,
                   after st' (Warning ("Skipping, did not find secret "
                                       ++ term))))
      /\ (on_missing = "skip" -> got = (Ok None, st'))
  | RaisePD =>
      let msg := "Failed to access secret " ++ term ++ " (AccessDenied)" in
      (on_denied = "error" ->
         got = (Raise (AnsibleError msg), st')
         /\ Text.contains term msg = true)
      /\ (on_denied = "warn" ->
            got = (Ok None,
                   after st' (Warning ("Skipping, access denied for secret "
                                       ++ term))))
      /\ (on_denied = "skip" -> got = (Ok None, st'))
  | RaiseCE text =>
      got = (Raise (AnsibleError ("Failed to retrieve secret: " ++ text)), st')
  | RaiseOther text => got = (Raise (ServiceException text), st')
  end.
Proof.
  intros Hname Hanswer st' got. subst got.
  rewrite (get_secret_value_answer _ _ _ on_missing on_denied _ _ _ _ _
             Hname Hanswer).
  fold st'.
  destruct r as [data| | |text|text]; try exact I; try reflexivity.
  - cbv zeta. split; [|split]; intros ->;
      [split; [reflexivity | apply contains_append] | reflexivity ..].
  - cbv zeta. split; [|split]; intros ->;
      [split; [reflexivity | apply contains_append] | reflexivity ..].
Qed.

(** C3. A term that is not nested is fetched under the name
    projects/{project_id}/secrets/{term}/versions/{version_id}, by one
    request, the version being "latest" when [version_id] is the default of
    [run], [None] or empty; the value is the payload, decoded as UTF-8,
    byte for byte. *)
Theorem plain_term_fetch (term project_id : string)
  (version_id : option string) (on_missing on_denied : string)
  (st : state) (data : list byte) (w' : World) (payload : string) :
  let name :=
    resource_path project_id term (version_or_latest version_id) in
  access_secret_version (service st) name = (Payload data, w') ->
  Utf8.decode data = Some payload ->
  get_secret_value term project_id version_id on_missing on_denied false st
  = (Ok (Some payload), mkState w' (effects st ++ [Request name])%list)
  /\ list_byte_of_string payload = data
  /\ version_or_latest default_version_id = "latest"
  /\ version_or_latest None = "latest"
  /\ version_or_latest (Some "") = "latest".
Proof.
  intros name Hanswer Hdecode.
  split; [|split; [|repeat split]].
  - rewrite (get_secret_value_answer _ _ _ on_missing on_denied _ _ _ _ _
               (resource_name_plain term project_id version_id) Hanswer).
    unfold lift, read_payload. rewrite Hdecode. reflexivity.
  - unfold Utf8.decode in Hdecode.
    destruct (Utf8.well_formed _ _); [|discriminate].
    injection Hdecode as <-. apply list_byte_of_string_of_list_byte.
Qed.

(** C5. A nested term with fewer than two segments between dots raises the
    [AnsibleError] that states the syntax of a nested query, whatever
    [on_missing] and [on_denied] are, and leaves the state as it was: no
    request is sent for the term. *)
Theorem nested_term_without_key (term project_id : string)
  (version_id : option string) (on_missing on_denied : string)
  (st : state) :
  (List.length (Text.split "." term) < 2)%nat ->
  get_secret_value term project_id version_id on_missing on_denied true st
  = (Raise (AnsibleError nested_syntax_message), st).
Proof.
  intros Hshort.
  unfold get_secret_value, bind, lift, resource_name.
  apply Nat.ltb_lt in Hshort. rewrite Hshort. reflexivity.
Qed.

(** *** The loop over the terms *)

Lemma resolve_terms_app (pre post : list string) (project_id : string)
  (version_id : option string) (missing denied : string) (nested : bool)
  (secrets : list string) (st : state) :
  resolve_terms (pre ++ post) project_id version_id missing denied nested
    secrets st
  = match resolve_terms pre project_id version_id missing denied nested
            secrets st with
    | (Ok secrets', st') =>
        resolve_terms post project_id version_id missing denied nested
          secrets' st'
    | (Raise e, st') => (Raise e, st')
    end.
Proof.
  revert secrets st.
  induction pre as [|term pre IH]; intros secrets st.
  - reflexivity.
  - cbn [app resolve_terms]. unfold bind.
    destruct (get_secret_value term project_id version_id missing denied
                nested st) as [[value|e] st1].
    + apply IH.
    + reflexivity.
Qed.

Lemma resolve_terms_each (terms : list string) (project_id : string)
  (version_id : option string) (missing denied : string) (nested : bool)
  (secrets : list string) (st : state) :
  resolve_terms terms project_id version_id missing denied nested secrets st
  = match resolve_each terms project_id version_id missing denied nested
            st with
    | (Ok results, st') => (Ok (secrets ++ kept results)%list, st')
    | (Raise e, st') => (Raise e, st')
    end.
Proof.
  revert secrets st.
  induction terms as [|term rest IH]; intros secrets st.
  - cbn. now rewrite app_nil_r.
  - cbn [resolve_terms resolve_each]. unfold bind.
    destruct (get_secret_value term project_id version_id missing denied
                nested st) as [[value|e] st1]; [|reflexivity].
    rewrite IH.
    destruct (resolve_each rest project_id version_id missing denied nested
                st1) as [[results|e] st2]; [|reflexivity].
    unfold ret. f_equal. f_equal.
    destruct value as [[|c v]|]; cbn [kept flat_map app];
      [reflexivity | now rewrite <- app_assoc | reflexivity].
Qed.

Lemma resolve_each_length (terms : list string) (project_id : string)
  (version_id : option string) (missing denied : string) (nested : bool)
  (st st' : state) (results : list (option string)) :
  resolve_each terms project_id version_id missing denied nested st
  = (Ok results, st') ->
  List.length results = List.length terms.
Proof.
  revert st st' results.
  induction terms as [|term rest IH]; intros st st' results.
  - cbn. intros [= <- _]. reflexivity.
  - cbn [resolve_each]. unfold bind.
    destruct (get_secret_value term project_id version_id missing denied
                nested st) as [[value|e] st1]; [|discriminate].
    destruct (resolve_each rest project_id version_id missing denied nested
                st1) as [[rs|e] st2] eqn:E; [|discriminate].
    unfold ret. intros [= <- _]. cbn. f_equal. exact (IH _ _ _ E).
Qed.

Lemma kept_nonempty (results : list (option string)) :
  Forall (fun v => v <> "") (kept results).
Proof.
  induction results as [|[[|c v]|] rs IH]; cbn [kept flat_map app];
    try assumption.
  - constructor.
  - constructor; [discriminate | assumption].
Qed.

(** Every effect of resolving one term comes after those already there. *)
Lemma get_secret_value_effects (term project_id : string)
  (version_id : option string) (on_missing on_denied : string)
  (nested : bool) (st : state) :
  exists more,
    effects (snd (get_secret_value term project_id version_id on_missing
                    on_denied nested st))
    = (effects st ++ more)%list.
Proof.
  unfold get_secret_value, bind, lift, call_service.
  destruct (resource_name term project_id version_id nested) as [name|e].
  - destruct (access_secret_version (service st) name) as [r w'].
    destruct r as [data| | |text|text];
      unfold raise, ret, display_warning, emit, bind;
      repeat match goal with
             | |- context [if ?b then _ else _] => destruct b
             end;
      cbn [snd effects service];
      try (eexists; reflexivity);
      try (exists [Request name; Warning ("Skipping, did not find secret "
                                          ++ term)];
           now rewrite <- app_assoc);
      try (exists [Request name; Warning ("Skipping, access denied for secret "
                                          ++ term)];
           now rewrite <- app_assoc).
  - exists []. now rewrite app_nil_r.
Qed.

Lemma resolve_terms_effects (terms : list string) (project_id : string)
  (version_id : option string) (missing denied : string) (nested : bool)
  (secrets : list string) (st : state) :
  exists more,
    effects (snd (resolve_terms terms project_id version_id missing denied
                    nested secrets st))
    = (effects st ++ more)%list.
Proof.
  revert secrets st.
  induction terms as [|term rest IH]; intros secrets st.
  - exists []. cbn. now rewrite app_nil_r.
  - cbn [resolve_terms]. unfold bind.
    destruct (get_secret_value_effects term project_id version_id missing
                denied nested st) as [m1 E1].
    destruct (get_secret_value term project_id version_id missing denied
                nested st) as [[value|e] st1]; cbn [snd] in E1.
    + destruct (IH (match value with
                    | Some (String _ _ as v) => (secrets ++ [v])%list
                    | _ => secrets
                    end) st1) as [m2 E2].
      exists (m1 ++ m2)%list. rewrite E2, E1. now rewrite app_assoc.
    + exists m1. exact E1.
Qed.

(** *** The options *)

Lemma policy_lowered (m : string) :
  In m policies -> Text.lower m = m /\ Text.mem m policies = true.
Proof.
  intros [<-|[<-|[<-|[]]]]; split; reflexivity.
Qed.

Lemma lower_recase (flags : list bool) (m : string) :
  In m policies -> Text.lower (recase flags m) = m.
Proof.
  intros [<-|[<-|[<-|[]]]];
    repeat (destruct flags as [|[|] flags]; try reflexivity).
Qed.

(** [run] once both options are found valid. *)
Lemma run_validated (project_id : string) (terms : list string)
  (nested join : bool) (version_id : option string)
  (on_missing on_denied : string) (st : state) :
  Text.mem (Text.lower on_missing) policies = true ->
  Text.mem (Text.lower on_denied) policies = true ->
  run project_id terms nested join version_id on_missing on_denied st
  = resolve_and_join terms project_id version_id (Text.lower on_missing)
      (Text.lower on_denied) nested join [] (after st NewClient).
Proof.
  intros Hm Hd. unfold run. rewrite Hm, Hd. reflexivity.
Qed.

(** The validation of [str] policies.  [run] compares the lowered
    [on_missing], then the lowered [on_denied], with "error", "warn" and
    "skip".  If one of them is none of the three, [run] raises an
    [AnsibleError] about that option and the state is as it was: no
    client, no request, no warning.  If each is one of the three words with
    its letters in any case, [run] goes on to create the client and to
    resolve the terms under the lowered policies. *)
Theorem policy_validation (project_id : string) (terms : list string)
  (nested join : bool) (version_id : option string)
  (on_missing on_denied : string) (st : state) :
  let got :=
    run project_id terms nested join version_id on_missing on_denied st in
  (Text.mem (Text.lower on_missing) policies = false ->
     got = (Raise (AnsibleError
                     (policy_message "on_missing" (Text.lower on_missing))),
            st))
  /\ (Text.mem (Text.lower on_missing) policies = true ->
        Text.mem (Text.lower on_denied) policies = false ->
        got = (Raise (AnsibleError
                        (policy_message "on_denied" (Text.lower on_denied))),
               st))
  /\ (forall (m d : string) (fm fd : list bool),
         In m policies -> In d policies ->
         on_missing = recase fm m -> on_denied = recase fd d ->
         got = resolve_and_join terms project_id version_id m d nested join
                 [] (after st NewClient)
         /\ exists more,
              effects (snd got) = (effects st ++ NewClient :: more)%list).
Proof.
  intros got. subst got. split; [|split].
  - intros Hm. unfold run. rewrite Hm. reflexivity.
  - intros Hm Hd. unfold run. rewrite Hm, Hd. reflexivity.
  - intros m d fm fd Im Id -> ->.
    assert (E : run project_id terms nested join version_id (recase fm m)
                  (recase fd d) st
                = resolve_and_join terms project_id version_id m d nested
                    join [] (after st NewClient)).
    { rewrite run_validated; rewrite ?lower_recase by assumption;
        try (apply policy_lowered; assumption).
      reflexivity. }
    split; [exact E|].
    rewrite E. unfold resolve_and_join, bind.
    destruct (resolve_terms_effects terms project_id version_id m d nested
                [] (after st NewClient)) as [more Hmore].
    destruct (resolve_terms terms project_id version_id m d nested []
                (after st NewClient)) as [[secrets|e] st1];
      cbn [snd] in Hmore.
    + exists more. destruct join; unfold ret; cbn [snd];
        rewrite Hmore; cbn [after effects]; now rewrite <- app_assoc.
    + exists more. cbn [snd].
      rewrite Hmore; cbn [after effects]; now rewrite <- app_assoc.
Qed.

(** C6. With valid policies and [join] true, [run] returns one entry: the
    values of the terms, in the order of the terms, put end to end with
    nothing between them.  With [join] false it returns the values as
    separate entries, in the same order.  An exception of a term is the
    outcome of [run], whatever [join] is. *)
Theorem join_concatenates (project_id : string) (terms : list string)
  (nested : bool) (version_id : option string)
  (on_missing on_denied : string) (st : state) :
  Text.mem (Text.lower on_missing) policies = true ->
  Text.mem (Text.lower on_denied) policies = true ->
  let call (join : bool) :=
    run project_id terms nested join version_id on_missing on_denied st in
  match resolve_each terms project_id version_id (Text.lower on_missing)
          (Text.lower on_denied) nested (after st NewClient) with
  | (Ok results, st') =>
      call true = (Ok [Text.join "" (resolved results)], st')
      /\ call false = (Ok (kept results), st')
      /\ Text.join "" (kept results) = Text.join "" (resolved results)
  | (Raise e, st') =>
      call true = (Raise e, st') /\ call false = (Raise e, st')
  end.
Proof.
  intros Hm Hd call. subst call. cbv beta.
  rewrite !run_validated by assumption.
  unfold resolve_and_join, bind. rewrite resolve_terms_each.
  destruct (resolve_each terms project_id version_id (Text.lower on_missing)
              (Text.lower on_denied) nested (after st NewClient))
    as [[results|e] st'].
  - cbn [app]. unfold ret. rewrite join_kept. repeat split.
  - split; reflexivity.
Qed.

(** C7, as the code has it.  With valid policies and [join] false, the
    output of [run] is made of the results of the terms taken in the order
    of the terms, each term giving one entry or none; a term without value
    gives none, and no entry is empty; without terms the output is empty.
    With [join] true and no term, the output is the one entry [""]. *)
Theorem order_preserved (project_id : string) (terms : list string)
  (nested : bool) (version_id : option string)
  (on_missing on_denied : string) (st : state) :
  Text.mem (Text.lower on_missing) policies = true ->
  Text.mem (Text.lower on_denied) policies = true ->
  (forall (secrets : list string) (st' : state),
      run project_id terms nested false version_id on_missing on_denied st
      = (Ok secrets, st') ->
      exists results,
        resolve_each terms project_id version_id (Text.lower on_missing)
          (Text.lower on_denied) nested (after st NewClient)
        = (Ok results, st')
        /\ List.length results = List.length terms
        /\ secrets = kept results
        /\ Forall (fun v => v <> "") secrets)
  /\ run project_id [] nested false version_id on_missing on_denied st
     = (Ok [], after st NewClient)
  /\ run project_id [] nested true version_id on_missing on_denied st
     = (Ok [""], after st NewClient).
Proof.
  intros Hm Hd. split; [|split].
  - intros secrets st'. rewrite run_validated by assumption.
    unfold resolve_and_join, bind. rewrite resolve_terms_each.
    destruct (resolve_each terms project_id version_id
                (Text.lower on_missing) (Text.lower on_denied) nested
                (after st NewClient)) as [[results|e] st1] eqn:E;
      [|discriminate].
    unfold ret. cbn [app]. intros [= <- <-].
    exists results. repeat split.
    + exact (resolve_each_length _ _ _ _ _ _ _ _ _ E).
    + apply kept_nonempty.
  - rewrite run_validated by assumption. reflexivity.
  - rewrite run_validated by assumption. reflexivity.
Qed.

(** C8, as the code has it.  With valid policies, if the terms before
    [term] were resolved and [term] raises [e], then [run] raises [e] and
    ends in the state [term] left: the terms after it cause no effect, and
    no value is returned.  When [e] comes from a fetch that found no secret
    or was denied access, its message contains the term. *)
Theorem fatal_error_aborts (project_id : string)
  (pre : list string) (term : string) (post : list string)
  (nested join : bool) (version_id : option string)
  (on_missing on_denied : string) (st st1 st2 : state)
  (secrets : list string) (e : exn) :
  Text.mem (Text.lower on_missing) policies = true ->
  Text.mem (Text.lower on_denied) policies = true ->
  resolve_terms pre project_id version_id (Text.lower on_missing)
    (Text.lower on_denied) nested [] (after st NewClient)
  = (Ok secrets, st1) ->
  get_secret_value term project_id version_id (Text.lower on_missing)
    (Text.lower on_denied) nested st1
  = (Raise e, st2) ->
  run project_id (pre ++ term :: post) nested join version_id on_missing
    on_denied st
  = (Raise e, st2)
  /\ (forall (name : string) (r : response) (w' : World),
        resource_name term project_id version_id nested = Ok name ->
        access_secret_version (service st1) name = (r, w') ->
        r = RaiseNF \/ r = RaisePD ->
        exists msg, e = AnsibleError msg /\ Text.contains term msg = true).
Proof.
  intros Hm Hd Hpre Hterm. split.
  - rewrite run_validated by assumption.
    unfold resolve_and_join, bind.
    rewrite resolve_terms_app, Hpre.
    cbn [resolve_terms]. unfold bind. rewrite Hterm. reflexivity.
  - intros name r w' Hname Hanswer Hr.
    rewrite (get_secret_value_answer _ _ _ (Text.lower on_missing)
               (Text.lower on_denied) _ _ _ _ _ Hname Hanswer) in Hterm.
    destruct Hr as [-> | ->].
    + destruct (String.eqb (Text.lower on_missing) "error").
      * unfold raise in Hterm. injection Hterm as <- _.
        eexists; split; [reflexivity|].
        exact (contains_append term "Failed to find secret "
                 " (ResourceNotFound)").
      * destruct (String.eqb (Text.lower on_missing) "warn");
          discriminate Hterm.
    + destruct (String.eqb (Text.lower on_denied) "error").
      * unfold raise in Hterm. injection Hterm as <- _.
        eexists; split; [reflexivity|].
        exact (contains_append term "Failed to access secret "
                 " (AccessDenied)").
      * destruct (String.eqb (Text.lower on_denied) "warn");
          discriminate Hterm.
Qed.

(** C10. With valid policies, a term whose value is the empty string adds
    nothing to the output, exactly as a term without value: after it,
    [run] goes on with the terms that follow and the entries gathered
    before it.  The empty string is the value of a term that is not nested
    and whose payload has no byte, and of a nested term whose walk ends on
    the empty string. *)
Theorem empty_value_omitted (project_id : string)
  (pre : list string) (term : string) (post : list string)
  (nested join : bool) (version_id : option string)
  (on_missing on_denied : string) (st st1 st2 : state)
  (secrets : list string) (value : option string) :
  Text.mem (Text.lower on_missing) policies = true ->
  Text.mem (Text.lower on_denied) policies = true ->
  resolve_terms pre project_id version_id (Text.lower on_missing)
    (Text.lower on_denied) nested [] (after st NewClient)
  = (Ok secrets, st1) ->
  get_secret_value term project_id version_id (Text.lower on_missing)
    (Text.lower on_denied) nested st1
  = (Ok value, st2) ->
  value = Some "" \/ value = None ->
  run project_id (pre ++ term :: post) nested join version_id on_missing
    on_denied st
  = resolve_and_join post project_id version_id (Text.lower on_missing)
      (Text.lower on_denied) nested join secrets st2
  /\ read_payload term false [] = Ok (Some "")
  /\ (forall (data : list byte) (payload : string) (secret : pyobj),
        Utf8.decode data = Some payload ->
        json_loads payload = Some secret ->
        walk (tl (Text.split "." term)) secret = Ok (PyStr "") ->
        read_payload term true data = Ok (Some "")).
Proof.
  intros Hm Hd Hpre Hterm Hvalue. split; [|split].
  - rewrite run_validated by assumption.
    unfold resolve_and_join, bind.
    rewrite resolve_terms_app, Hpre.
    cbn [resolve_terms]. unfold bind. rewrite Hterm.
    destruct Hvalue as [-> | ->]; reflexivity.
  - reflexivity.
  - intros data payload secret Hdecode Hloads Hwalk.
    unfold read_payload. rewrite Hdecode, Hloads, Hwalk. reflexivity.
Qed.

(** *** The nested walk *)

(** A key of a dict is found, and the walk goes on from its value. *)
Lemma walk_descends (key : string) (keys : list string)
  (d : list (string * pyobj)) (v : pyobj) :
  dict_get key d = Some v ->
  walk (key :: keys) (PyDict d) = walk keys v.
Proof.
  intros H. cbn [walk lookup_key]. rewrite H. reflexivity.
Qed.

(** A key that a dict lacks raises the [AnsibleError] about the key. *)
Lemma walk_missing_key (key : string) (keys : list string)
  (d : list (string * pyobj)) :
  dict_get key d = None ->
  walk (key :: keys) (PyDict d) = Raise (AnsibleError (no_key_message key)).
Proof.
  intros H. cbn [walk lookup_key]. rewrite H. reflexivity.
Qed.

(** A key looked up in a number, a bool or [None] raises [TypeError]. *)
Lemma walk_scalar (key : string) (keys : list string) (v : pyobj) :
  match v with
  | PyNone | PyBool _ | PyInt _ | PyFloat _ => True
  | _ => False
  end ->
  walk (key :: keys) v = Raise (TypeError (NotIterable v)).
Proof.
  destruct v; intros H; try contradiction; reflexivity.
Qed.

(** *** The keywords of a call *)

(** The options of the [def] are accepted as keywords. *)
Lemma call_run_known {A : Type} (body : M A) :
  call_run ["nested"; "join"; "version_id"; "on_missing"; "on_denied"] body
  = body.
Proof. reflexivity. Qed.

(** *** The segments of a term *)

Lemma has_dot_cons (c : ascii) (r : string) :
  Text.contains "." (String c r)
  = if Ascii.eqb c "." then true else Text.contains "." r.
Proof.
  change (Text.contains "." (String c r))
    with (if String.prefix "." (String c r) then true
          else Text.contains "." r).
  cbn [String.prefix].
  destruct (ascii_dec "." c) as [<-|N].
  - destruct r; reflexivity.
  - destruct (Ascii.eqb_spec c ".") as [->|_]; [now elim N | reflexivity].
Qed.

Lemma split_not_nil (sep : ascii) (s : string) : Text.split sep s <> [].
Proof.
  destruct s as [|c r]; cbn [Text.split]; [discriminate|].
  destruct (Ascii.eqb c sep); [discriminate|].
  destruct (Text.split sep r); discriminate.
Qed.

Lemma split_without_dot (s : string) :
  Text.contains "." s = false -> Text.split "." s = [s].
Proof.
  induction s as [|c r IH]; [reflexivity|].
  rewrite has_dot_cons. cbn [Text.split].
  destruct (Ascii.eqb c "."); [discriminate|].
  intros H. rewrite (IH H). reflexivity.
Qed.

Lemma split_with_dot (s : string) :
  Text.contains "." s = true ->
  exists secret key keys, Text.split "." s = secret :: key :: keys.
Proof.
  induction s as [|c r IH]; [discriminate|].
  rewrite has_dot_cons. cbn [Text.split].
  destruct (Ascii.eqb c ".").
  - intros _. destruct (Text.split "." r) as [|h t] eqn:E.
    + now elim (split_not_nil "." r).
    + now exists "", h, t.
  - intros H. destruct (IH H) as (secret & key & keys & ->).
    now exists (String c secret), key, keys.
Qed.

Lemma split_short_iff (s : string) :
  (List.length (Text.split "." s) < 2)%nat <-> Text.contains "." s = false.
Proof.
  split.
  - intros Hlen. destruct (Text.contains "." s) eqn:E; [|reflexivity].
    destruct (split_with_dot s E) as (a & b & l & Hs).
    rewrite Hs in Hlen. cbn in Hlen. lia.
  - intros H. rewrite (split_without_dot s H). cbn. lia.
Qed.

Lemma split_at_first_dot (secret rest : string) :
  Text.contains "." secret = false ->
  Text.split "." (secret ++ "." ++ rest) = secret :: Text.split "." rest.
Proof.
  induction secret as [|c r IH].
  - intros _. reflexivity.
  - rewrite has_dot_cons.
    change (String c r ++ "." ++ rest) with (String c (r ++ "." ++ rest)).
    cbn [Text.split].
    destruct (Ascii.eqb c "."); [discriminate|].
    intros H. rewrite (IH H). reflexivity.
Qed.

Lemma join_cons_cons (sep x y : string) (l : list string) :
  Text.join sep (x :: y :: l) = x ++ sep ++ Text.join sep (y :: l).
Proof. reflexivity. Qed.

Lemma split_join (s : string) : Text.join "." (Text.split "." s) = s.
Proof.
  induction s as [|c r IH]; [reflexivity|].
  cbn [Text.split].
  destruct (Text.split "." r) as [|h t] eqn:E.
  - now elim (split_not_nil "." r).
  - destruct (Ascii.eqb_spec c ".") as [->|_].
    + rewrite join_cons_cons, IH. reflexivity.
    + destruct t as [|k t].
      * unfold Text.join in *. cbn in *. now rewrite IH.
      * rewrite join_cons_cons in *.
        change (String c h ++ "." ++ Text.join "." (k :: t))
          with (String c (h ++ "." ++ Text.join "." (k :: t))).
        now rewrite IH.
Qed.

Lemma split_segments (s : string) :
  Forall (fun seg => Text.contains "." seg = false) (Text.split "." s).
Proof.
  induction s as [|c r IH]; [repeat constructor|].
  cbn [Text.split].
  destruct (Text.split "." r) as [|h t] eqn:E.
  - now elim (split_not_nil "." r).
  - inversion IH as [|? ? Hh Ht]; subst.
    destruct (Ascii.eqb c ".") eqn:Ec.
    + constructor; [reflexivity | assumption].
    + constructor; [|assumption].
      rewrite has_dot_cons, Ec. exact Hh.
Qed.

(** X1. A nested term [secret.rest], [secret] without dot, is read from
    the resource of [secret] alone, by one request; its value is the text
    of what the walk over the segments of [rest] finds in the parsed
    payload, and an exception of the walk is the outcome. *)
Theorem nested_term_fetch (secret rest project_id : string)
  (version_id : option string) (on_missing on_denied : string)
  (st : state) (data : list byte) (w' : World) (payload : string)
  (secret_string : pyobj) :
  let name :=
    resource_path project_id secret (version_or_latest version_id) in
  Text.contains "." secret = false ->
  access_secret_version (service st) name = (Payload data, w') ->
  Utf8.decode data = Some payload ->
  json_loads payload = Some secret_string ->
  get_secret_value (secret ++ "." ++ rest) project_id version_id on_missing
    on_denied true st
  = (match walk (Text.split "." rest) secret_string with
     | Ok ret_val => Ok (Some (py_str ret_val))
     | Raise e => Raise e
     end,
     mkState w' (effects st ++ [Request name])%list).
Proof.
  intros name Hsecret Hanswer Hdecode Hloads.
  pose proof (split_at_first_dot secret rest Hsecret) as Hsplit.
  destruct (Text.split "." rest) as [|key keys] eqn:Erest.
  { now elim (split_not_nil "." rest). }
  rewrite (get_secret_value_answer _ _ _ on_missing on_denied _ _ _ _ _
             (resource_name_nested _ project_id version_id _ _ _ Hsplit)
             Hanswer).
  unfold lift, read_payload. rewrite Hdecode, Hloads, Hsplit.
  reflexivity.
Qed.

(** X2. A nested term is refused with the error about the syntax, nothing
    being requested, exactly when it contains no dot. *)
Theorem nested_syntax_iff_no_dot (term project_id : string)
  (version_id : option string) (on_missing on_denied : string)
  (st : state) :
  get_secret_value term project_id version_id on_missing on_denied true st
  = (Raise (AnsibleError nested_syntax_message), st)
  <-> Text.contains "." term = false.
Proof.
  split.
  - intros H. destruct (Text.contains "." term) eqn:E; [|reflexivity].
    exfalso.
    destruct (split_with_dot term E) as (secret & key & keys & Hsplit).
    pose proof (resource_name_nested term project_id version_id _ _ _ Hsplit)
      as Hname.
    destruct (access_secret_version (service st)
                (resource_path project_id secret
                   (version_or_latest version_id))) as [r w'] eqn:Hanswer.
    rewrite (get_secret_value_answer _ _ _ on_missing on_denied _ _ _ _ _
               Hname Hanswer) in H.
    apply (f_equal (fun out => List.length (effects (snd out)))) in H.
    destruct r as [data| | |text|text];
      unfold lift, raise, ret, bind, display_warning, emit in H;
      repeat match type of H with
             | context [if ?b then _ else _] => destruct b
             end;
      cbn [snd effects] in H; rewrite ?length_app in H;
      cbn [List.length] in H; lia.
  - intros H. unfold get_secret_value, bind, lift, resource_name.
    apply split_short_iff, Nat.ltb_lt in H. rewrite H. reflexivity.
Qed.

(** X3. The segments of a term give the term back when joined with dots,
    and none of them contains a dot.  So the secret name of a nested term
    is what stands before its first dot and the keys are what stands
    between the dots after it. *)
Theorem term_recomposed (term : string) :
  Text.contains "." term = true ->
  let secret_name := hd "" (Text.split "." term) in
  let query := tl (Text.split "." term) in
  term = secret_name ++ "." ++ Text.join "." query
  /\ query <> []
  /\ Text.contains "." secret_name = false
  /\ Forall (fun key => Text.contains "." key = false) query.
Proof.
  intros Hdot secret_name query. subst secret_name query.
  pose proof (split_join term) as Hjoin.
  pose proof (split_segments term) as Hseg.
  destruct (split_with_dot term Hdot) as (secret & key & keys & Hsplit).
  rewrite Hsplit in Hjoin, Hseg |- *. cbn [hd tl].
  apply Forall_cons_iff in Hseg. destruct Hseg as [Hs Hk].
  repeat split; try assumption.
  - rewrite join_cons_cons in Hjoin. now symmetry.
  - discriminate.
Qed.

(** *** What a call does to the outside *)

Lemma requests_app (l1 l2 : list event) :
  requests (l1 ++ l2) = (requests l1 + requests l2)%nat.
Proof.
  induction l1 as [|[|name|msg] l1 IH]; cbn; now rewrite ?IH.
Qed.

Lemma clients_app (l1 l2 : list event) :
  clients (l1 ++ l2) = (clients l1 + clients l2)%nat.
Proof.
  induction l1 as [|[|name|msg] l1 IH]; cbn; now rewrite ?IH.
Qed.

Lemma warnings_app (l1 l2 : list event) :
  warnings (l1 ++ l2) = (warnings l1 ++ warnings l2)%list.
Proof.
  induction l1 as [|[|name|msg] l1 IH]; cbn; now rewrite ?IH.
Qed.

(** The effects of resolving one term: no client, at most one request,
    one request when a result is returned, and a warning only under a
    "warn" policy. *)
Lemma get_secret_value_footprint (term project_id : string)
  (version_id : option string) (on_missing on_denied : string)
  (nested : bool) (st : state) :
  let out :=
    get_secret_value term project_id version_id on_missing on_denied nested
      st in
  exists more,
    effects (snd out) = (effects st ++ more)%list
    /\ clients more = 0%nat
    /\ (requests more <= 1)%nat
    /\ ((exists value, fst out = Ok value) -> requests more = 1%nat)
    /\ (on_missing <> "warn" -> on_denied <> "warn" -> warnings more = []).
Proof.
  intros out. subst out.
  unfold get_secret_value, bind, lift, call_service.
  destruct (resource_name term project_id version_id nested) as [name|e].
  - destruct (access_secret_version (service st) name) as [r w'].
    destruct r as [data| | |text|text].
    + exists [Request name]. cbn. repeat split; auto.
    + destruct (String.eqb_spec on_missing "error") as [_|_];
        [|destruct (String.eqb_spec on_missing "warn") as [Hw|_]].
      * exists [Request name]. cbn. repeat split; auto.
      * exists [Request name;
                Warning ("Skipping, did not find secret " ++ term)].
        cbn. rewrite <- app_assoc. repeat split; auto.
        intros H. now elim H.
      * exists [Request name]. cbn. repeat split; auto.
    + destruct (String.eqb_spec on_denied "error") as [_|_];
        [|destruct (String.eqb_spec on_denied "warn") as [Hw|_]].
      * exists [Request name]. cbn. repeat split; auto.
      * exists [Request name;
                Warning ("Skipping, access denied for secret " ++ term)].
        cbn. rewrite <- app_assoc. repeat split; auto.
        intros _ H. now elim H.
      * exists [Request name]. cbn. repeat split; auto.
    + exists [Request name]. cbn. repeat split; auto.
    + exists [Request name]. cbn. repeat split; auto.
  - exists []. cbn. rewrite app_nil_r. repeat split; auto.
    intros [value H]. discriminate H.
Qed.

Lemma resolve_terms_footprint (terms : list string) (project_id : string)
  (version_id : option string) (missing denied : string) (nested : bool)
  (secrets : list string) (st : state) :
  let out :=
    resolve_terms terms project_id version_id missing denied nested secrets
      st in
  exists more,
    effects (snd out) = (effects st ++ more)%list
    /\ clients more = 0%nat
    /\ (requests more <= List.length terms)%nat
    /\ ((exists found, fst out = Ok found) ->
        requests more = List.length terms)
    /\ (missing <> "warn" -> denied <> "warn" -> warnings more = []).
Proof.
  revert secrets st.
  induction terms as [|term rest IH]; intros secrets st out; subst out.
  - exists []. cbn. rewrite app_nil_r. repeat split; auto.
  - cbn [resolve_terms]. unfold bind.
    destruct (get_secret_value_footprint term project_id version_id missing
                denied nested st) as (m1 & E1 & C1 & R1 & S1 & W1).
    destruct (get_secret_value term project_id version_id missing denied
                nested st) as [[value|e] st1]; cbn [fst snd] in *.
    + destruct (IH (match value with
                    | Some (String _ _ as v) => (secrets ++ [v])%list
                    | _ => secrets
                    end) st1) as (m2 & E2 & C2 & R2 & S2 & W2).
      exists (m1 ++ m2)%list.
      rewrite E2, E1, <- app_assoc, clients_app, requests_app, warnings_app.
      assert (requests m1 = 1%nat) as -> by (apply S1; eauto).
      repeat split; cbn [List.length]; try lia.
      * intros H. rewrite (S2 H). reflexivity.
      * intros Hm Hd. now rewrite W1, W2.
    + exists m1. repeat split; cbn [List.length]; auto; try lia.
      intros [found H]. discriminate H.
Qed.


(** X5. When neither lowered policy is "warn", [run] displays no warning,
    whatever the service answers. *)
Theorem warnings_only_under_warn (project_id : string) (terms : list string)
  (nested join : bool) (version_id : option string)
  (on_missing on_denied : string) (st : state) :
  Text.lower on_missing <> "warn" ->
  Text.lower on_denied <> "warn" ->
  warnings
    (effects
       (snd (run project_id terms nested join version_id on_missing
               on_denied st)))
  = warnings (effects st).
Proof.
  intros Hm Hd. unfold run.
  destruct (Text.mem (Text.lower on_missing) policies); [|reflexivity].
  destruct (Text.mem (Text.lower on_denied) policies); [|reflexivity].
  cbn [negb]. unfold bind, new_client, emit.
  destruct (resolve_terms_footprint terms project_id version_id
              (Text.lower on_missing) (Text.lower on_denied) nested []
              (mkState (service st) (effects st ++ [NewClient])%list))
    as (more & E & _ & _ & _ & Wn).
  destruct (resolve_terms terms project_id version_id
              (Text.lower on_missing) (Text.lower on_denied) nested []
              (mkState (service st) (effects st ++ [NewClient])%list))
    as [[secrets|e] st1]; cbn [fst snd effects] in *.
  - assert (effects (snd ((if join then ret [Text.join "" secrets]
                           else ret secrets) st1))
            = ((effects st ++ [NewClient]) ++ more)%list) as ->.
    { destruct join; unfold ret; cbn [snd]; exact E. }
    rewrite !warnings_app, (Wn Hm Hd). cbn. now rewrite !app_nil_r.
  - rewrite E, !warnings_app, (Wn Hm Hd). cbn. now rewrite !app_nil_r.
Qed.

(** *** The payload *)

Lemma read_payload_value (term : string) (nested : bool) (data : list byte) :
  read_payload term nested data <> Ok None.
Proof.
  unfold read_payload.
  destruct (Utf8.decode data) as [payload|]; [|discriminate].
  destruct nested; [|discriminate].
  destruct (json_loads payload) as [secret_string|]; [|discriminate].
  destruct (walk _ secret_string); discriminate.
Qed.

(** X6. Once the service has answered with a payload, the result of the
    term is the same under all policies.  In particular a payload that is
    no UTF-8 raises [UnicodeDecodeError], and the payload of a nested term
    that is no JSON raises [JSONDecodeError], also under "skip" and
    "warn". *)
Theorem payload_errors_ignore_policy (term project_id : string)
  (version_id : option string) (nested : bool) (st : state) (name : string)
  (data : list byte) (w' : World) :
  resource_name term project_id version_id nested = Ok name ->
  access_secret_version (service st) name = (Payload data, w') ->
  let st' := mkState w' (effects st ++ [Request name])%list in
  let got (on_missing on_denied : string) :=
    get_secret_value term project_id version_id on_missing on_denied nested
      st in
  (forall m d m' d' : string, got m d = got m' d')
  /\ (Utf8.decode data = None ->
      forall m d : string, got m d = (Raise UnicodeDecodeError, st'))
  /\ (forall payload : string,
        nested = true ->
        Utf8.decode data = Some payload ->
        json_loads payload = None ->
        forall m d : string, got m d = (Raise JSONDecodeError, st')).
Proof.
  intros Hname Hanswer st' got. subst got. cbv beta.
  assert (E : forall m d : string,
             get_secret_value term project_id version_id m d nested st
             = (read_payload term nested data, st')).
  { intros m d.
    now rewrite (get_secret_value_answer _ _ _ m d _ _ _ _ _ Hname Hanswer). }
  split; [|split].
  - intros m d m' d'. now rewrite !E.
  - intros Hdecode m d. rewrite E. unfold read_payload.
    now rewrite Hdecode.
  - intros payload -> Hdecode Hloads m d. rewrite E. unfold read_payload.
    now rewrite Hdecode, Hloads.
Qed.

(** X7. A term has no value only when its fetch found no secret while
    [on_missing] is not "error", or was denied access while [on_denied] is
    not "error": a payload always gives a value or an exception. *)
Theorem no_value_only_after_failed_fetch (term project_id : string)
  (version_id : option string) (on_missing on_denied : string)
  (nested : bool) (st st' : state) :
  get_secret_value term project_id version_id on_missing on_denied nested st
  = (Ok None, st') ->
  exists (name : string) (w' : World),
    resource_name term project_id version_id nested = Ok name
    /\ ((access_secret_version (service st) name = (RaiseNF, w')
         /\ on_missing <> "error")
        \/ (access_secret_version (service st) name = (RaisePD, w')
            /\ on_denied <> "error")).
Proof.
  intros H.
  destruct (resource_name term project_id version_id nested) as [name|e]
    eqn:Hname.
  - destruct (access_secret_version (service st) name) as [r w'] eqn:Hanswer.
    rewrite (get_secret_value_answer _ _ _ on_missing on_denied _ _ _ _ _
               Hname Hanswer) in H.
    exists name, w'. split; [reflexivity|].
    destruct r as [data| | |text|text].
    + unfold lift in H. injection H as H _.
      now elim (read_payload_value term nested data).
    + left. split; [exact Hanswer|]. intros ->. discriminate H.
    + right. split; [exact Hanswer|]. intros ->. discriminate H.
    + discriminate H.
    + discriminate H.
  - unfold get_secret_value, bind, lift in H. rewrite Hname in H.
    discriminate H.
Qed.

(** *** Where an exception of [run] comes from *)

Lemma resolve_terms_raise (terms : list string) (project_id : string)
  (version_id : option string) (missing denied : string) (nested : bool)
  (secrets : list string) (st st' : state) (e : exn) :
  resolve_terms terms project_id version_id missing denied nested secrets st
  = (Raise e, st') ->
  exists (pre : list string) (term : string) (post : list string)
         (found : list string) (st1 : state),
    terms = (pre ++ term :: post)%list
    /\ resolve_terms pre project_id version_id missing denied nested secrets
         st
       = (Ok found, st1)
    /\ get_secret_value term project_id version_id missing denied nested st1
       = (Raise e, st').
Proof.
  revert secrets st.
  induction terms as [|term rest IH]; intros secrets st.
  - discriminate.
  - cbn [resolve_terms]. unfold bind.
    destruct (get_secret_value term project_id version_id missing denied
                nested st) as [[value|e1] st1] eqn:Hterm.
    + intros H.
      destruct (IH _ _ H) as (pre & t & post & found & st2 & -> & Hpre & Ht).
      exists (term :: pre), t, post, found, st2.
      split; [reflexivity|]. split; [|exact Ht].
      cbn [resolve_terms]. unfold bind. rewrite Hterm. exact Hpre.
    + intros [= <- <-].
      exists [], term, rest, secrets, st.
      repeat split. exact Hterm.
Qed.

(** [run_untyped] on [str] policies, the client being built and the
    service left as it was, is [run]. *)
Lemma run_untyped_str (project_id : string) (terms : list string)
  (nested join : bool) (version_id : option string)
  (on_missing on_denied : string) (st : state) :
  SecretManagerServiceClient (service st) = (None, service st) ->
  run_untyped project_id terms nested join version_id (PyStr on_missing)
    (PyStr on_denied) st
  = run project_id terms nested join version_id on_missing on_denied st.
Proof.
  intros Hclient. unfold run_untyped, run, bind, lift.
  cbn [lower_method isinstance_string_types negb orb].
  destruct (Text.mem (Text.lower on_missing) policies); [|reflexivity].
  destruct (Text.mem (Text.lower on_denied) policies); [|reflexivity].
  cbn [negb]. unfold construct_client, new_client, emit.
  rewrite Hclient. reflexivity.
Qed.

(** A policy that is no [str] raises [AttributeError] at [.lower()], before
    the test that would report it, and the state is as it was. *)
Lemma run_untyped_non_str (project_id : string) (terms : list string)
  (nested join : bool) (version_id : option string)
  (on_missing on_denied : pyobj) (st : state) :
  (isinstance_string_types on_missing = false ->
   run_untyped project_id terms nested join version_id on_missing on_denied
     st
   = (Raise AttributeError, st))
  /\ (forall m : string,
        on_missing = PyStr m ->
        Text.mem (Text.lower m) policies = true ->
        isinstance_string_types on_denied = false ->
        run_untyped project_id terms nested join version_id on_missing
          on_denied st
        = (Raise AttributeError, st)).
Proof.
  split.
  - intros H. unfold run_untyped, bind, lift.
    destruct on_missing; try reflexivity. discriminate H.
  - intros m -> Hm H. unfold run_untyped, bind, lift.
    cbn [lower_method isinstance_string_types negb orb]. rewrite Hm.
    cbn [negb]. destruct on_denied; try reflexivity. discriminate H.
Qed.


(** *** More on the nested walk *)

(** X9. Walking two lists of keys one after the other is walking their
    concatenation. *)
Theorem walk_app (keys1 keys2 : list string) (v : pyobj) :
  walk (keys1 ++ keys2) v
  = match walk keys1 v with
    | Ok x => walk keys2 x
    | Raise e => Raise e
    end.
Proof.
  revert v. induction keys1 as [|key keys1 IH]; intros v.
  - reflexivity.
  - cbn [app walk]. destruct (lookup_key key v) as [x|e]; [apply IH|].
    reflexivity.
Qed.

(** X10. A walk over at least one key succeeds only through dicts: the
    value it starts from is a dict that has the first key, and the walk
    goes on from the value of that key.  No key is ever found in a list, a
    str, a number, a bool or [None]. *)
Theorem walk_only_through_dicts (key : string) (keys : list string)
  (v x : pyobj) :
  walk (key :: keys) v = Ok x ->
  exists (d : list (string * pyobj)) (v' : pyobj),
    v = PyDict d /\ dict_get key d = Some v' /\ walk keys v' = Ok x.
Proof.
  cbn [walk]. intros H.
  destruct v as [| b | z | r | s | l | d]; cbn [lookup_key] in H;
    try discriminate H.
  - destruct (Text.contains key s); discriminate H.
  - destruct (existsb (eq_str key) l); discriminate H.
  - destruct (dict_get key d) as [v'|] eqn:E; [|discriminate H].
    now exists d, v'.
Qed.

(** X11. A walk fails with the error about one of its keys being absent,
    or with [TypeError]; it raises nothing else. *)
Theorem walk_error_kinds (keys : list string) (v : pyobj) (e : exn) :
  walk keys v = Raise e ->
  (exists key, In key keys /\ e = AnsibleError (no_key_message key))
  \/ (exists what, e = TypeError what).
Proof.
  revert v. induction keys as [|key keys IH]; intros v.
  - discriminate.
  - cbn [walk]. destruct (lookup_key key v) as [x|e1] eqn:E.
    + intros H. destruct (IH _ H) as [(k & Hin & ->)|Hty]; [left|right; exact Hty].
      exists k. split; [now right | reflexivity].
    + intros [= <-].
      destruct v as [| b | z | r | s | l | d]; cbn [lookup_key] in E.
      * right. injection E as <-. eauto.
      * right. injection E as <-. eauto.
      * right. injection E as <-. eauto.
      * right. injection E as <-. eauto.
      * destruct (Text.contains key s); injection E as <-;
          [right; eauto | left; exists key; split; [now left | reflexivity]].
      * destruct (existsb (eq_str key) l); injection E as <-;
          [right; eauto | left; exists key; split; [now left | reflexivity]].
      * destruct (dict_get key d); [discriminate E|]. injection E as <-.
        left. exists key. split; [now left | reflexivity].
Qed.

(** *** Values that Python holds for false *)

Lemma of_Z_nonempty (z : Z) : Text.of_Z z <> "".
Proof.
  unfold Text.of_Z. destruct z as [|p|p]; cbn [Z.to_int NilEmpty.string_of_int].
  - discriminate.
  - pose proof (Unsigned.to_uint_nonnil p) as H.
    destruct (Pos.to_uint p); [now elim H | discriminate ..].
  - discriminate.
Qed.

Lemma py_str_plain (v : pyobj) :
  plain_value v = true -> exists c s, py_str v = String c s.
Proof.
  destruct v as [| [|] | z | r | t | l | d]; cbn [plain_value];
    try discriminate; intros _; unfold py_str; cbn [py_repr];
    try (eexists; eexists; reflexivity).
  pose proof (of_Z_nonempty z) as H.
  destruct (Text.of_Z z) as [|c s]; [now elim H | now exists c, s].
Qed.

(** X12. The value of a nested term whose walk ends on [None], a bool, an
    int, a list or a dict is never empty, so the term adds an entry to the
    output, also when the value found is 0, false, null, [[]] or [{}]. *)
Theorem plain_values_kept (term : string) (rest : list string)
  (project_id : string) (version_id : option string)
  (missing denied : string) (nested : bool) (secrets : list string)
  (st st' : state) (v : pyobj) :
  plain_value v = true ->
  get_secret_value term project_id version_id missing denied nested st
  = (Ok (Some (py_str v)), st') ->
  py_str v <> ""
  /\ resolve_terms (term :: rest) project_id version_id missing denied nested
       secrets st
     = resolve_terms rest project_id version_id missing denied nested
         (secrets ++ [py_str v])%list st'.
Proof.
  intros Hplain Hterm.
  destruct (py_str_plain v Hplain) as (c & s & E).
  split; [rewrite E; discriminate|].
  cbn [resolve_terms]. unfold bind. rewrite Hterm, E. reflexivity.
Qed.

(** *** The size of the output *)

Lemma kept_length (results : list (option string)) :
  (List.length (kept results) <= List.length results)%nat.
Proof.
  unfold kept.
  induction results as [|[[|c v]|] rs IH]; cbn [flat_map app List.length];
    lia.
Qed.

(** X13. With valid policies, the output of [run] has one entry when
    [join] is true and at most as many entries as there are terms when
    [join] is false. *)
Theorem output_size (project_id : string) (terms : list string)
  (nested join : bool) (version_id : option string)
  (on_missing on_denied : string) (st st' : state) (secrets : list string) :
  Text.mem (Text.lower on_missing) policies = true ->
  Text.mem (Text.lower on_denied) policies = true ->
  run project_id terms nested join version_id on_missing on_denied st
  = (Ok secrets, st') ->
  if join then List.length secrets = 1%nat
  else (List.length secrets <= List.length terms)%nat.
Proof.
  intros Hm Hd. rewrite run_validated by assumption.
  unfold resolve_and_join, bind. rewrite resolve_terms_each.
  destruct (resolve_each terms project_id version_id (Text.lower on_missing)
              (Text.lower on_denied) nested (after st NewClient))
    as [[results|e] st1] eqn:E; [|discriminate].
  cbn [app]. destruct join; unfold ret; intros [= <- _].
  - reflexivity.
  - rewrite <- (resolve_each_length _ _ _ _ _ _ _ _ _ E).
    apply kept_length.
Qed.

(** *** ASCII payloads *)

Lemma well_formed_ascii (fuel : nat) (l : list N) :
  (List.length l <= fuel)%nat ->
  Forall (fun b => (b < 128)%N) l ->
  Utf8.well_formed fuel l = true.
Proof.
  revert l. induction fuel as [|fuel IH]; intros l Hlen Hall.
  - destruct l; [reflexivity | cbn in Hlen; lia].
  - destruct l as [|b l]; [reflexivity|].
    apply Forall_cons_iff in Hall. destruct Hall as [Hb Hl].
    cbn [Utf8.well_formed].
    assert (Utf8.between 0 127 b = true) as ->.
    { unfold Utf8.between. apply andb_true_iff. split; apply N.leb_le; lia. }
    apply IH; [cbn in Hlen; lia | exact Hl].
Qed.

(** X14. A payload made of ASCII bytes always decodes: the value of a
    term that is not nested is then the text with the very bytes of the
    payload. *)
Theorem ascii_payload_verbatim (term project_id : string)
  (version_id : option string) (on_missing on_denied : string)
  (st : state) (data : list byte) (w' : World) :
  let name :=
    resource_path project_id term (version_or_latest version_id) in
  Forall (fun b => (Byte.to_N b < 128)%N) data ->
  access_secret_version (service st) name = (Payload data, w') ->
  get_secret_value term project_id version_id on_missing on_denied false st
  = (Ok (Some (string_of_list_byte data)),
     mkState w' (effects st ++ [Request name])%list).
Proof.
  intros name Hascii Hanswer.
  rewrite (get_secret_value_answer _ _ _ on_missing on_denied _ _ _ _ _
             (resource_name_plain term project_id version_id) Hanswer).
  unfold lift, read_payload, Utf8.decode.
  rewrite well_formed_ascii.
  - reflexivity.
  - now rewrite length_map.
  - apply Forall_map. exact Hascii.
Qed.

(** *** Calls one after the other *)

(** The effects already recorded do not change what a term resolves to. *)
Lemma get_secret_value_frame (term project_id : string)
  (version_id : option string) (on_missing on_denied : string)
  (nested : bool) (st : state) (effs : list event) :
  let out :=
    get_secret_value term project_id version_id on_missing on_denied nested
      st in
  let out' :=
    get_secret_value term project_id version_id on_missing on_denied nested
      (mkState (service st) effs) in
  fst out' = fst out
  /\ service (snd out') = service (snd out)
  /\ exists more,
       effects (snd out) = (effects st ++ more)%list
       /\ effects (snd out') = (effs ++ more)%list.
Proof.
  intros out out'. subst out out'.
  unfold get_secret_value, bind, lift, call_service.
  destruct (resource_name term project_id version_id nested) as [name|e].
  - cbn [service effects].
    destruct (access_secret_version (service st) name) as [r w'].
    destruct r as [data| | |text|text];
      unfold raise, ret, display_warning, emit, bind;
      repeat match goal with
             | |- context [if ?b then _ else _] => destruct b
             end;
      cbn [fst snd service effects];
      (split; [reflexivity | split; [reflexivity|]]);
      first [ exists [Request name]; split; reflexivity
            | eexists [Request name; Warning _];
              rewrite <- !app_assoc; split; reflexivity ].
  - cbn [fst snd service effects].
    split; [reflexivity | split; [reflexivity|]].
    exists []. now rewrite !app_nil_r.
Qed.

Lemma resolve_each_frame (terms : list string) (project_id : string)
  (version_id : option string) (missing denied : string) (nested : bool)
  (st : state) (effs : list event) :
  let out :=
    resolve_each terms project_id version_id missing denied nested st in
  let out' :=
    resolve_each terms project_id version_id missing denied nested
      (mkState (service st) effs) in
  fst out' = fst out
  /\ service (snd out') = service (snd out)
  /\ exists more,
       effects (snd out) = (effects st ++ more)%list
       /\ effects (snd out') = (effs ++ more)%list.
Proof.
  revert st effs.
  induction terms as [|term rest IH]; intros st effs out out'; subst out out'.
  - cbn. split; [reflexivity | split; [reflexivity|]].
    exists []. now rewrite !app_nil_r.
  - cbn [resolve_each]. unfold bind.
    destruct (get_secret_value_frame term project_id version_id missing
                denied nested st effs) as (F1 & S1 & m1 & E1 & E1').
    destruct (get_secret_value term project_id version_id missing denied
                nested st) as [r1 st1].
    destruct (get_secret_value term project_id version_id missing denied
                nested (mkState (service st) effs)) as [r1' st1'].
    cbn [fst snd] in *. subst r1'.
    destruct r1 as [value|e]; cbn [fst snd].
    + destruct st1' as [w1' effs1']. cbn [service effects] in *. subst w1'.
      destruct (IH st1 effs1') as (F2 & S2 & m2 & E2 & E2').
      destruct (resolve_each rest project_id version_id missing denied
                  nested st1) as [r2 st2].
      destruct (resolve_each rest project_id version_id missing denied
                  nested (mkState (service st1) effs1')) as [r2' st2'].
      cbn [fst snd] in *. subst r2'.
      destruct r2 as [values|e]; unfold ret; cbn [fst snd];
        (split; [reflexivity | split; [exact S2|]]);
        exists (m1 ++ m2)%list;
        rewrite E2, E2', E1, E1', <- !app_assoc; split; reflexivity.
    + split; [reflexivity | split; [exact S1|]].
      exists m1. split; assumption.
Qed.

(** X15. With valid policies and [join] false, resolving two lists of
    terms by two calls of [run], one after the other, gives the entries
    that one call of [run] on the two lists put end to end gives, and
    leaves the service in the same state. *)
Theorem calls_compose (project_id : string) (terms1 terms2 : list string)
  (nested : bool) (version_id : option string)
  (on_missing on_denied : string) (st st1 st2 : state)
  (secrets1 secrets2 : list string) :
  Text.mem (Text.lower on_missing) policies = true ->
  Text.mem (Text.lower on_denied) policies = true ->
  run project_id terms1 nested false version_id on_missing on_denied st
  = (Ok secrets1, st1) ->
  run project_id terms2 nested false version_id on_missing on_denied st1
  = (Ok secrets2, st2) ->
  exists st3,
    run project_id (terms1 ++ terms2) nested false version_id on_missing
      on_denied st
    = (Ok (secrets1 ++ secrets2)%list, st3)
    /\ service st3 = service st2.
Proof.
  intros Hm Hd.
  rewrite !run_validated by assumption.
  unfold resolve_and_join, bind.
  rewrite resolve_terms_app.
  destruct (resolve_terms terms1 project_id version_id
              (Text.lower on_missing) (Text.lower on_denied) nested []
              (after st NewClient)) as [[found1|e1] st1'];
    [|discriminate].
  unfold ret. intros [= -> ->].
  rewrite !resolve_terms_each.
  destruct (resolve_each_frame terms2 project_id version_id
              (Text.lower on_missing) (Text.lower on_denied) nested st1
              (effects st1 ++ [NewClient])%list) as (F & S & _).
  change (mkState (service st1) (effects st1 ++ [NewClient])%list)
    with (after st1 NewClient) in F, S.
  destruct (resolve_each terms2 project_id version_id
              (Text.lower on_missing) (Text.lower on_denied) nested st1)
    as [r st3].
  destruct (resolve_each terms2 project_id version_id
              (Text.lower on_missing) (Text.lower on_denied) nested
              (after st1 NewClient)) as [r' st3'].
  cbn [fst snd] in F, S. subst r'.
  destruct r as [results|e]; [|discriminate].
  cbn [app]. intros [= <- <-].
  exists st3. split; [reflexivity | now symmetry].
Qed.

(** *** Policies that are not one of the three words *)

(** X16. [get_secret_value] compares its policies with "error" and "warn"
    only: any other [on_missing] acts as "skip", and so does any other
    [on_denied]. *)
Theorem unknown_policy_is_skip (term project_id : string)
  (version_id : option string) (on_missing on_denied : string)
  (nested : bool) (st : state) :
  (on_missing <> "error" -> on_missing <> "warn" ->
   get_secret_value term project_id version_id on_missing on_denied nested st
   = get_secret_value term project_id version_id "skip" on_denied nested st)
  /\ (on_denied <> "error" -> on_denied <> "warn" ->
      get_secret_value term project_id version_id on_missing on_denied nested
        st
      = get_secret_value term project_id version_id on_missing "skip" nested
          st).
Proof.
  split; intros He Hw;
    apply String.eqb_neq in He; apply String.eqb_neq in Hw;
    unfold get_secret_value, bind, lift, call_service;
    destruct (resource_name term project_id version_id nested) as [name|e];
    try reflexivity;
    destruct (access_secret_version (service st) name) as [r w'];
    destruct r as [data| | |text|text]; try reflexivity;
    rewrite He, Hw; reflexivity.
Qed.

End LookupModule.

(* ================================================================== *)
(** ** The plugin on the table-driven service *)

Local Abbreviation W := TableService.World.
Local Abbreviation Run :=
  (run W TableService.access_secret_version JsonFragment.loads
     JsonFragment.repr_plain).
Local Abbreviation RunUntyped :=
  (run_untyped W TableService.access_secret_version
     TableService.create_client JsonFragment.loads JsonFragment.repr_plain).
Local Abbreviation GetSecretValue :=
  (get_secret_value W TableService.access_secret_version JsonFragment.loads
     JsonFragment.repr_plain).
Local Abbreviation ResolveEach :=
  (resolve_each W TableService.access_secret_version JsonFragment.loads
     JsonFragment.repr_plain).
Local Abbreviation ResolveTerms :=
  (resolve_terms W TableService.access_secret_version JsonFragment.loads
     JsonFragment.repr_plain).
Local Abbreviation start := (mkState W TableService.sample []).
Local Notation "'done' effs" := (mkState W TableService.sample effs)
  (at level 10, only parsing).
Local Abbreviation latest s := ("projects/P/secrets/" ++ s ++ "/versions/latest").

Example split_examples :
  Text.split "." "foo.bar.baz" = ["foo"; "bar"; "baz"]
  /\ Text.split "." "" = [""] /\ Text.split "." "a." = ["a"; ""]
  /\ Text.split "." ".." = [""; ""; ""] /\ Text.split "." "foo" = ["foo"].
Proof. repeat split. Qed.

Example lower_examples :
  Text.lower "ERROR" = "error" /\ Text.lower "sKiP" = "skip"
  /\ Text.lower "warn1_Z@[`{" = "warn1_z@[`{".
Proof. repeat split. Qed.

Example of_Z_examples :
  Text.of_Z 42 = "42" /\ Text.of_Z 0 = "0" /\ Text.of_Z (-7) = "-7".
Proof. repeat split. Qed.

Example decode_examples :
  Utf8.decode [x68; x69] = Some "hi"
  /\ Utf8.decode [] = Some ""
  /\ Utf8.decode [xc3; xa9] = Some (String "195" (String "169" ""))
  /\ Utf8.decode [xc0; x80] = None
  /\ Utf8.decode [xed; xa0; x80] = None
  /\ Utf8.decode [xff] = None.
Proof. repeat split. Qed.

Example loads_examples :
  JsonFragment.loads (TableService.member "bar" (TableService.member "baz" "42"))
  = Some (PyDict [("bar", PyDict [("baz", PyInt 42)])])
  /\ JsonFragment.loads "[1, true, null]"
     = Some (PyList [PyInt 1; PyBool true; PyNone])
  /\ JsonFragment.loads "{" = None.
Proof. repeat split. Qed.

(** The term "foo.bar.baz" over the payload with [bar] an object whose
    [baz] is 42 resolves to the text "42". *)
Example nested_forty_two :
  Run "P" ["foo.bar.baz"] true false (Some "latest") "error" "error" start
  = (Ok ["42"], done [NewClient; Request (latest "foo")]).
Proof. reflexivity. Qed.

(** A key that an object lacks raises the error about the key, under
    any policy. *)
Example nested_missing_key :
  Run "P" ["foo.bar.nope"] true false (Some "latest") "skip" "skip" start
  = (Raise (AnsibleError
       "Successfully retrieved secret but there exists no key nope in the secret"),
     done [NewClient; Request (latest "foo")]).
Proof. reflexivity. Qed.

(** The walk may end on an object: its value is the text of the dict. *)
Example nested_object_value :
  Run "P" ["foo.bar"] true false (Some "latest") "error" "error" start
  = (Ok ["{'baz': 42}"], done [NewClient; Request (latest "foo")]).
Proof. reflexivity. Qed.

Lemma fetch_failure_policy_witness :
  resource_name "zz" "P" None false = Ok (latest "zz")
  /\ TableService.access_secret_version TableService.sample (latest "zz")
     = (RaiseNF, TableService.sample)
  /\ GetSecretValue "zz" "P" None "warn" "error" false start
     = (Ok None,
        done [Request (latest "zz");
              Warning "Skipping, did not find secret zz"]).
Proof.
  split; [reflexivity | split; [reflexivity|]].
  exact (proj1 (proj2
           (fetch_failure_policy W TableService.access_secret_version
              JsonFragment.loads JsonFragment.repr_plain
              "zz" "P" None "warn" "error" false start (latest "zz")
              RaiseNF TableService.sample eq_refl eq_refl))
           eq_refl).
Defined.

(** C2.  The term "flat.bar.baz" is resolved over the payload whose [bar]
    is the number 42: looking [baz] up in the number raises [TypeError],
    not the [AnsibleError] about the missing key. *)
Theorem nested_walk_into_number :
  JsonFragment.loads (TableService.member "bar" "42")
  = Some (PyDict [("bar", PyInt 42)])
  /\ Run "P" ["flat.bar.baz"] true false (Some "latest") "error" "error" start
     = (Raise (TypeError (NotIterable (PyInt 42))),
        done [NewClient; Request (latest "flat")])
  /\ lookup_key "baz" (PyInt 42) <> Raise (AnsibleError (no_key_message "baz")).
Proof.
  split; [reflexivity | split; [reflexivity | discriminate]].
Qed.

Lemma plain_term_fetch_witness :
  TableService.access_secret_version TableService.sample (latest "a")
  = (Payload ["x"%byte], TableService.sample)
  /\ Utf8.decode ["x"%byte] = Some "x"
  /\ GetSecretValue "a" "P" (default_version_id) "error" "error" false start
     = (Ok (Some "x"), done [Request "projects/P/secrets/a/versions/latest"])
  /\ GetSecretValue "a" "P" (Some "7") "error" "error" false start
     = (Ok (Some "old"), done [Request "projects/P/secrets/a/versions/7"]).
Proof.
  split; [reflexivity | split; [reflexivity | split]].
  - exact (proj1
             (plain_term_fetch W TableService.access_secret_version
                JsonFragment.loads JsonFragment.repr_plain
                "a" "P" default_version_id "error" "error" start
                ["x"%byte] TableService.sample "x" eq_refl eq_refl)).
  - exact (proj1
             (plain_term_fetch W TableService.access_secret_version
                JsonFragment.loads JsonFragment.repr_plain
                "a" "P" (Some "7") "error" "error" start
                (list_byte_of_string "old") TableService.sample "old"
                eq_refl eq_refl)).
Defined.

Lemma policy_validation_witness :
  Run "P" ["a"] false false (Some "latest") "bogus" "error" start
  = (Raise (AnsibleError
              (policy_message "on_missing" "bogus")), start)
  /\ Run "P" ["a"] false false (Some "latest") "Warn" "Nope" start
     = (Raise (AnsibleError (policy_message "on_denied" "nope")), start)
  /\ exists more,
       effects W
         (snd (Run "P" ["a"] false false (Some "latest") "WARN" "sKip" start))
       = NewClient :: more.
Proof.
  split; [|split].
  - exact (proj1
             (policy_validation W TableService.access_secret_version
                JsonFragment.loads JsonFragment.repr_plain
                "P" ["a"] false false (Some "latest") "bogus" "error" start)
             eq_refl).
  - exact (proj1 (proj2
             (policy_validation W TableService.access_secret_version
                JsonFragment.loads JsonFragment.repr_plain
                "P" ["a"] false false (Some "latest") "Warn" "Nope" start))
             eq_refl eq_refl).
  - exact (proj2 (proj2 (proj2
             (policy_validation W TableService.access_secret_version
                JsonFragment.loads JsonFragment.repr_plain
                "P" ["a"] false false (Some "latest") "WARN" "sKip" start))
             "warn" "skip" [true; true; true; true] [false; true]
             (or_intror (or_introl eq_refl))
             (or_intror (or_intror (or_introl eq_refl)))
             eq_refl eq_refl)).
Defined.

Lemma nested_term_without_key_witness :
  (List.length (Text.split "." "foo") < 2)%nat
  /\ GetSecretValue "foo" "P" (Some "latest") "skip" "skip" true start
     = (Raise (AnsibleError nested_syntax_message), start).
Proof.
  split; [apply Nat.lt_succ_diag_r|].
  exact (nested_term_without_key W TableService.access_secret_version
           JsonFragment.loads JsonFragment.repr_plain
           "foo" "P" (Some "latest") "skip" "skip" start
           (Nat.lt_succ_diag_r 1)).
Defined.

Lemma join_concatenates_witness :
  Run "P" ["a"; "b"] false true (Some "latest") "error" "error" start
  = (Ok ["xy"], done [NewClient; Request (latest "a"); Request (latest "b")])
  /\ Run "P" ["a"; "b"] false false (Some "latest") "error" "error" start
     = (Ok ["x"; "y"],
        done [NewClient; Request (latest "a"); Request (latest "b")]).
Proof.
  pose proof
    (join_concatenates W TableService.access_secret_version
       JsonFragment.loads JsonFragment.repr_plain
       "P" ["a"; "b"] false (Some "latest") "error" "error" start
       eq_refl eq_refl) as H.
  split; [exact (proj1 H) | exact (proj1 (proj2 H))].
Defined.

Lemma order_preserved_witness :
  Run "P" ["a"; "zz"; "e"; "d"; "b"] false false None "WARN" "Skip" start
  = (Ok ["x"; "y"],
     done [NewClient; Request (latest "a"); Request (latest "zz");
           Warning "Skipping, did not find secret zz";
           Request (latest "e"); Request (latest "d");
           Request (latest "b")])
  /\ exists results,
       ResolveEach ["a"; "zz"; "e"; "d"; "b"] "P" None "warn" "skip" false
         (done [NewClient])
       = (Ok results,
          done [NewClient; Request (latest "a"); Request (latest "zz");
                Warning "Skipping, did not find secret zz";
                Request (latest "e"); Request (latest "d");
                Request (latest "b")])
       /\ List.length results = 5%nat
       /\ ["x"; "y"] = kept results
       /\ Forall (fun v => v <> "") ["x"; "y"].
Proof.
  split; [reflexivity|].
  exact (proj1
           (order_preserved W TableService.access_secret_version
              JsonFragment.loads JsonFragment.repr_plain
              "P" ["a"; "zz"; "e"; "d"; "b"] false None "WARN" "Skip" start
              eq_refl eq_refl)
           ["x"; "y"] _ eq_refl).
Defined.

(** With [join] true and no term, the output is not empty: it has the
    one entry [""]. *)
Lemma empty_terms_joined :
  Run "P" [] false true (Some "latest") "error" "error" start
  = (Ok [""], done [NewClient])
  /\ [""] <> @nil string.
Proof. split; [reflexivity | discriminate]. Qed.

Lemma fatal_error_aborts_witness :
  ResolveTerms ["a"] "P" (Some "latest") "error" "error" false []
    (done [NewClient])
  = (Ok ["x"], done [NewClient; Request (latest "a")])
  /\ GetSecretValue "zz" "P" (Some "latest") "error" "error" false
       (done [NewClient; Request (latest "a")])
     = (Raise (AnsibleError "Failed to find secret zz (ResourceNotFound)"),
        done [NewClient; Request (latest "a"); Request (latest "zz")])
  /\ Run "P" ["a"; "zz"; "b"] false false (Some "latest") "Error" "error"
       start
     = (Raise (AnsibleError "Failed to find secret zz (ResourceNotFound)"),
        done [NewClient; Request (latest "a"); Request (latest "zz")])
  /\ exists msg,
       AnsibleError "Failed to find secret zz (ResourceNotFound)"
       = AnsibleError msg
       /\ Text.contains "zz" msg = true.
Proof.
  pose proof
    (fatal_error_aborts W TableService.access_secret_version
       JsonFragment.loads JsonFragment.repr_plain
       "P" ["a"] "zz" ["b"] false false (Some "latest") "Error" "error"
       start (done [NewClient; Request (latest "a")])
       (done [NewClient; Request (latest "a"); Request (latest "zz")])
       ["x"] (AnsibleError "Failed to find secret zz (ResourceNotFound)")
       eq_refl eq_refl eq_refl eq_refl) as H.
  split; [reflexivity | split; [reflexivity | split]].
  - exact (proj1 H).
  - exact (proj2 H (latest "zz") RaiseNF TableService.sample
             eq_refl eq_refl (or_introl eq_refl)).
Defined.

(** The error of a nested term without key ends [run], and its message
    does not contain the term. *)
Lemma nested_syntax_error_omits_term :
  Run "P" ["foo"] true false (Some "latest") "error" "error" start
  = (Raise (AnsibleError nested_syntax_message), done [NewClient])
  /\ Text.contains "foo" nested_syntax_message = false.
Proof. split; reflexivity. Qed.

(** The error of another client error carries the text of the service,
    not the term. *)
Example client_error_text :
  Run "P" ["a"; "c"; "b"] false false (Some "latest") "skip" "skip" start
  = (Raise (AnsibleError "Failed to retrieve secret: 400 bad request"),
     done [NewClient; Request (latest "a"); Request (latest "c")]).
Proof. reflexivity. Qed.

(** An exception of the client that is no client error leaves [run] as
    it is. *)
Example other_exception_propagates :
  Run "P" ["s"; "b"] false false (Some "latest") "skip" "skip" start
  = (Raise (ServiceException "503 unavailable"),
     done [NewClient; Request (latest "s")]).
Proof. reflexivity. Qed.

Lemma empty_value_omitted_witness :
  GetSecretValue "e" "P" (Some "latest") "error" "error" false
    (done [NewClient; Request (latest "a")])
  = (Ok (Some ""),
     done [NewClient; Request (latest "a"); Request (latest "e")])
  /\ Run "P" ["a"; "e"; "b"] false false (Some "latest") "error" "error"
       start
     = (Ok ["x"; "y"],
        done [NewClient; Request (latest "a"); Request (latest "e");
              Request (latest "b")]).
Proof.
  split; [reflexivity|].
  exact (proj1
           (empty_value_omitted W TableService.access_secret_version
              JsonFragment.loads JsonFragment.repr_plain
              "P" ["a"] "e" ["b"] false false (Some "latest") "error" "error"
              start (done [NewClient; Request (latest "a")])
              (done [NewClient; Request (latest "a"); Request (latest "e")])
              ["x"] (Some "")
              eq_refl eq_refl eq_refl eq_refl (or_introl eq_refl))).
Defined.

(** C9.  A call of [run] with the keyword [version_stage], or [bypath],
    raises [TypeError] before the body runs: the [def] names neither.
    The same call without the keyword resolves the term. *)
Theorem version_stage_rejected :
  call_run W ["version_stage"]
    (Run "P" ["a"] false false (Some "latest") "error" "error") start
  = (Raise (TypeError (UnexpectedKeyword "version_stage")), start)
  /\ call_run W ["bypath"]
       (Run "P" ["a"] false false (Some "latest") "error" "error") start
     = (Raise (TypeError (UnexpectedKeyword "bypath")), start)
  /\ call_run W []
       (Run "P" ["a"] false false (Some "latest") "error" "error") start
     = (Ok ["x"], done [NewClient; Request (latest "a")])
  /\ Text.mem "version_stage" run_parameters = false
  /\ Text.mem "bypath" run_parameters = false.
Proof. repeat split. Qed.

(* ================================================================== *)
(** ** Further properties on the table-driven service *)

Local Abbreviation corner_start := (mkState W TableService.corner []).
Local Abbreviation foo_text :=
  (TableService.member "bar" (TableService.member "baz" "42")).

Lemma nested_term_fetch_witness :
  Text.contains "." "foo" = false
  /\ GetSecretValue "foo.bar.baz" "P" None "error" "error" true start
     = (Ok (Some "42"), done [Request (latest "foo")]).
Proof.
  split; [reflexivity|].
  exact (nested_term_fetch W TableService.access_secret_version
           JsonFragment.loads JsonFragment.repr_plain
           "foo" "bar.baz" "P" None "error" "error" start
           (list_byte_of_string foo_text) TableService.sample foo_text
           (PyDict [("bar", PyDict [("baz", PyInt 42)])])
           eq_refl eq_refl eq_refl eq_refl).
Defined.

Lemma nested_syntax_iff_no_dot_witness :
  Text.contains "." "foo" = false
  /\ GetSecretValue "foo" "P" None "warn" "warn" true start
     = (Raise (AnsibleError nested_syntax_message), start).
Proof.
  split; [reflexivity|].
  exact (proj2
           (nested_syntax_iff_no_dot W TableService.access_secret_version
              JsonFragment.loads JsonFragment.repr_plain
              "foo" "P" None "warn" "warn" start)
           eq_refl).
Defined.

Lemma term_recomposed_witness :
  Text.contains "." "foo.bar.baz" = true
  /\ "foo.bar.baz" = "foo" ++ "." ++ Text.join "." ["bar"; "baz"].
Proof.
  split; [reflexivity|].
  exact (proj1 (term_recomposed "foo.bar.baz" eq_refl)).
Defined.


Lemma warnings_only_under_warn_witness :
  warnings
    (effects W
       (snd (Run "P" ["a"; "zz"; "d"] false false None "Skip" "skip" start)))
  = [].
Proof.
  apply (warnings_only_under_warn W TableService.access_secret_version
           JsonFragment.loads JsonFragment.repr_plain
           "P" ["a"; "zz"; "d"] false false None "Skip" "skip" start);
    discriminate.
Defined.

Lemma payload_errors_ignore_policy_witness :
  GetSecretValue "bin" "P" None "skip" "warn" false corner_start
  = (Raise UnicodeDecodeError,
     mkState W TableService.corner [Request (latest "bin")])
  /\ GetSecretValue "a.k" "P" None "warn" "skip" true start
     = (Raise JSONDecodeError, done [Request (latest "a")]).
Proof.
  split.
  - exact (proj1 (proj2
             (payload_errors_ignore_policy W
                TableService.access_secret_version JsonFragment.loads
                JsonFragment.repr_plain
                "bin" "P" None false corner_start (latest "bin")
                [xff; xfe] TableService.corner eq_refl eq_refl))
             eq_refl "skip" "warn").
  - exact (proj2 (proj2
             (payload_errors_ignore_policy W
                TableService.access_secret_version JsonFragment.loads
                JsonFragment.repr_plain
                "a.k" "P" None true start (latest "a")
                ["x"%byte] TableService.sample eq_refl eq_refl))
             "x" eq_refl eq_refl eq_refl "warn" "skip").
Defined.

Lemma no_value_only_after_failed_fetch_witness :
  GetSecretValue "d" "P" None "error" "skip" false start
  = (Ok None, done [Request (latest "d")])
  /\ exists (name : string) (w' : W),
       resource_name "d" "P" None false = Ok name
       /\ ((TableService.access_secret_version TableService.sample name
            = (RaiseNF, w')
            /\ "error" <> "error")
           \/ (TableService.access_secret_version TableService.sample name
               = (RaisePD, w')
               /\ "skip" <> "error")).
Proof.
  split; [reflexivity|].
  exact (no_value_only_after_failed_fetch W
           TableService.access_secret_version JsonFragment.loads
           JsonFragment.repr_plain
           "d" "P" None "error" "skip" false start
           (done [Request (latest "d")]) eq_refl).
Defined.


(** The constructor of the client raising ends [run_untyped] before any
    request. *)
Example constructor_exception :
  run_untyped W TableService.access_secret_version
    TableService.no_credentials JsonFragment.loads JsonFragment.repr_plain
    "P" ["a"] false false None (PyStr "error") (PyStr "error") start
  = (Raise (ServiceException "no credentials"), start).
Proof. reflexivity. Qed.

(** C4.  A policy that is no [str] is not reported by the error of the
    validation: [run_untyped] calls [.lower()] on it before the test with
    [isinstance], and that raises [AttributeError].  So does [on_missing]
    [None], and so does [on_denied] [True] after a valid [on_missing];
    a [str] that is none of the three words gets the error of the
    validation. *)
Theorem non_str_policy_escapes_validation :
  RunUntyped "P" ["a"] false false (Some "latest") PyNone (PyStr "error")
    start
  = (Raise AttributeError, start)
  /\ RunUntyped "P" ["a"] false false (Some "latest") (PyStr "Warn")
       (PyBool true) start
     = (Raise AttributeError, start)
  /\ RunUntyped "P" ["a"] false false (Some "latest") (PyStr "bogus")
       (PyStr "error") start
     = (Raise (AnsibleError (policy_message "on_missing" "bogus")), start)
  /\ (forall msg : string, AttributeError <> AnsibleError msg).
Proof.
  split; [reflexivity | split; [reflexivity | split; [reflexivity|]]].
  intros msg. discriminate.
Qed.

Lemma walk_only_through_dicts_witness :
  exists (d : list (string * pyobj)) (v' : pyobj),
    PyDict [("bar", PyDict [("baz", PyInt 42)])] = PyDict d
    /\ dict_get "bar" d = Some v'
    /\ walk ["baz"] v' = Ok (PyInt 42).
Proof.
  exact (walk_only_through_dicts "bar" ["baz"]
           (PyDict [("bar", PyDict [("baz", PyInt 42)])]) (PyInt 42)
           eq_refl).
Defined.

Lemma walk_error_kinds_witness :
  walk ["bar"; "baz"] (PyDict [("bar", PyInt 42)])
  = Raise (TypeError (NotIterable (PyInt 42)))
  /\ ((exists key,
         In key ["bar"; "baz"]
         /\ TypeError (NotIterable (PyInt 42))
            = AnsibleError (no_key_message key))
      \/ exists what, TypeError (NotIterable (PyInt 42)) = TypeError what).
Proof.
  split; [reflexivity|].
  exact (walk_error_kinds ["bar"; "baz"] (PyDict [("bar", PyInt 42)])
           (TypeError (NotIterable (PyInt 42))) eq_refl).
Defined.

Lemma plain_values_kept_witness :
  GetSecretValue "zero.n" "P" None "error" "error" true corner_start
  = (Ok (Some "0"), mkState W TableService.corner [Request (latest "zero")])
  /\ py_str JsonFragment.repr_plain (PyInt 0) <> ""
  /\ ResolveTerms ["zero.n"; "zero.l"] "P" None "error" "error" true []
       corner_start
     = ResolveTerms ["zero.l"] "P" None "error" "error" true ["0"]
         (mkState W TableService.corner [Request (latest "zero")]).
Proof.
  split; [reflexivity|].
  exact (plain_values_kept W TableService.access_secret_version
           JsonFragment.loads JsonFragment.repr_plain
           "zero.n" ["zero.l"] "P" None "error" "error" true []
           corner_start
           (mkState W TableService.corner [Request (latest "zero")])
           (PyInt 0) eq_refl eq_refl).
Defined.

(** The number 0 and the empty array are kept, as "0" and "[]". *)
Example zero_and_empty_list_kept :
  Run "P" ["zero.n"; "zero.l"] true false None "error" "error" corner_start
  = (Ok ["0"; "[]"],
     mkState W TableService.corner
       [NewClient; Request (latest "zero"); Request (latest "zero")]).
Proof. reflexivity. Qed.

Lemma output_size_witness :
  Run "P" ["a"; "zz"; "b"] false false None "skip" "skip" start
  = (Ok ["x"; "y"],
     done [NewClient; Request (latest "a"); Request (latest "zz");
           Request (latest "b")])
  /\ (List.length ["x"; "y"] <= 3)%nat.
Proof.
  split; [reflexivity|].
  exact (output_size W TableService.access_secret_version
           JsonFragment.loads JsonFragment.repr_plain
           "P" ["a"; "zz"; "b"] false false None "skip" "skip" start
           (done [NewClient; Request (latest "a"); Request (latest "zz");
                  Request (latest "b")])
           ["x"; "y"] eq_refl eq_refl eq_refl).
Defined.

Lemma ascii_payload_verbatim_witness :
  GetSecretValue "a" "P" (Some "7") "error" "error" false start
  = (Ok (Some "old"), done [Request "projects/P/secrets/a/versions/7"]).
Proof.
  apply (ascii_payload_verbatim W TableService.access_secret_version
           JsonFragment.loads JsonFragment.repr_plain
           "a" "P" (Some "7") "error" "error" start
           (list_byte_of_string "old") TableService.sample).
  - repeat constructor.
  - reflexivity.
Defined.

Lemma calls_compose_witness :
  exists st3,
    Run "P" ["a"; "b"] false false None "error" "error" start
    = (Ok ["x"; "y"], st3)
    /\ service W st3 = TableService.sample.
Proof.
  exact (calls_compose W TableService.access_secret_version
           JsonFragment.loads JsonFragment.repr_plain
           "P" ["a"] ["b"] false None "error" "error" start
           (done [NewClient; Request (latest "a")])
           (done [NewClient; Request (latest "a"); NewClient;
                  Request (latest "b")])
           ["x"] ["y"] eq_refl eq_refl eq_refl eq_refl).
Defined.

Lemma unknown_policy_is_skip_witness :
  GetSecretValue "zz" "P" None "ignore" "error" false start
  = (Ok None, done [Request (latest "zz")]).
Proof.
  rewrite (proj1
             (unknown_policy_is_skip W TableService.access_secret_version
                JsonFragment.loads JsonFragment.repr_plain
                "zz" "P" None "ignore" "error" false start))
    by discriminate.
  reflexivity.
Defined.
